(** * ProjectExtentsEditingExample: the project-extents editing panel

    A shallow embedding of
    [test-apps/display-test-app/src/frontend/ProjectExtentsEditingExample.ts]
    and the properties of its offset computation and of its five button
    handlers.

    Numbers.  A JavaScript [number] is read as a real number: the arithmetic
    of the panel ([Math.max], a doubling, a comparison with zero, a
    negation and one Euclidean norm) is taken exactly, without rounding or
    overflow.

    Effects.  The handlers are [async] methods; each one is modelled as a
    sequential state transformer over the panel's own fields and the
    objects it talks to (the viewport's iModel connection and the view
    manager), run to its end before the next one starts; vectors are
    values, as neither the panel nor (by assumption) the library writes to
    a vector it was given.  Every call that leaves the panel is appended
    to a log, so that "what was called, with what, in which order" is a
    statement about a list. *)

From Stdlib Require Import Reals Lra List String Bool Arith Lia.
Import ListNotations.

Local Open Scope string_scope.
Local Open Scope list_scope.

(** ** The geometry the panel uses *)

(** Modelled from the spec: [Vector3d] is declared in core-geometry, which
    is not part of the file under study.  The panel uses it as "a 3D
    displacement" with [create], [clone], [negate] ("exact negations") and
    [magnitude]; the vector is the triple of its coordinates and the
    magnitude is the Euclidean norm. *)
Module Vector3d.

Record t : Type := create { x : R; y : R; z : R }.

Definition clone (v : t) : t := create (x v) (y v) (z v).

Definition negate (v : t) : t := create (- x v) (- y v) (- z v).

Definition magnitude (v : t) : R :=
  sqrt (x v * x v + y v * y v + z v * z v).

End Vector3d.

(** Modelled from the spec: [Range3d] is declared in core-geometry.  The
    panel only observes a range through [xLength()], [yLength()] and
    [zLength()] ("x, y, z lengths"), so an extents value is given by those
    three numbers; nothing is assumed about their sign. *)
Module Range3d.

Record t : Type := fromLengths { xLength : R; yLength : R; zLength : R }.

End Range3d.

(** Modelled from the spec: [Transform.createTranslation] builds the
    "translation matrix" handed to the geometry transform; a translation is
    determined by its displacement vector, which it holds as is. *)
Module Transform.

Record t : Type := createTranslation { origin : Vector3d.t }.

End Transform.

(** [Math.max] of three numbers. *)
Definition Math_max3 (a b c : R) : R := Rmax (Rmax a b) c.

(** The test [a <= b] of the source as a boolean. *)
Definition Rleb (a b : R) : bool := if Rle_dec a b then true else false.

(** ** Module-level definitions of the source *)

Definition defaultOffset : Vector3d.t := Vector3d.create 50000 0 0.

(** The largest of the three lengths of an extents range, the [length] of
    [getRangeBasedOffset]. *)
Definition largestLength (extents : Range3d.t) : R :=
  Math_max3 (Range3d.xLength extents) (Range3d.yLength extents)
            (Range3d.zLength extents).

Definition getRangeBasedOffset (extents : Range3d.t) : Vector3d.t :=
  let length := largestLength extents in
  if Rleb length 0 then Vector3d.clone defaultOffset
  else
    let scale := Rmax (length * 2) (Vector3d.magnitude defaultOffset) in
    Vector3d.create scale 0 0.


(** ** The objects around the panel *)

Definition Id64String : Type := string.

(** JavaScript truthiness of a string: only the empty string is falsy. *)
Definition truthy (s : string) : bool := negb (s =? "").

(** The values a query row can carry under [id]; the source tells strings
    from everything else with [typeof]. *)
Inductive JsValue : Type :=
| JsUndefined
| JsNumber (n : R)
| JsString (s : string).

Module QueryRow.

Record t : Type := make { id : JsValue }.

End QueryRow.

Inductive QueryRowFormat : Type := UseJsPropertyNames.

(** The editing-scope object of a connection; the panel only tests whether
    one is there. *)
Inductive GraphicalEditingScope : Type := ActiveScope.

(** The connection of the viewport.  [queryRows] is what its query engine
    answers to a statement and its bindings. *)
Record IModelConnection : Type := mkIModel {
  isBriefcaseConnection : bool;
  editingScope : option GraphicalEditingScope;
  projectExtents : Range3d.t;
  queryRows : string -> list Id64String -> list QueryRow.t
}.

Module ModelState.

Record t : Type := make { id : Id64String; name : option string }.

End ModelState.

(** [viewModels] is the sequence [view.forEachModel] visits. *)
Record Viewport : Type := mkViewport {
  iModel : IModelConnection;
  viewModels : list ModelState.t
}.

(** What [getBriefcase] hands out: the viewport's own connection object,
    known to be a briefcase.  It is a reference, so reading through it sees
    the connection as it is at the time of the read. *)
Inductive BriefcaseConnection : Type := viewportIModel.

(** The calls that leave the panel. *)
Inductive ExternalCall : Type :=
| EnterEditingScope
| ExitEditingScope
| CreateQueryReader (ecsql : string) (bindings : list Id64String)
                    (rowFormat : QueryRowFormat)
| TransformElements (ids : list string) (transform : Transform.t)
| SaveChanges (description : string)
| RefreshForModifiedModels (modelIds : list Id64String).

(** ** The select element of the panel

    A drop-down [select]: its options in document order and the index of
    the selected one, if any. *)

Module HTMLOptionElement.

Record t : Type := make { value : string; text : string }.

End HTMLOptionElement.

Module HTMLSelectElement.

Record t : Type := make {
  options : list HTMLOptionElement.t;
  selectedIndex : option nat
}.

Definition empty : t := make [] None.

(** The [value] getter: the value of the selected option, or the empty
    string when no option is selected. *)
Definition value (sel : t) : string :=
  match selectedIndex sel with
  | Some i =>
      match nth_error (options sel) i with
      | Some o => HTMLOptionElement.value o
      | None => ""
      end
  | None => ""
  end.

(** [innerHTML = ""]: every option is removed. *)
Definition clear (sel : t) : t := make [] None.

(** [appendChild(option)]: the option goes last; a drop-down with no
    selected option selects its first one. *)
Definition appendChild (sel : t) (o : HTMLOptionElement.t) : t :=
  make (options sel ++ [o])
       (match selectedIndex sel with
        | Some i => Some i
        | None => Some 0%nat
        end).

Fixpoint indexOfValue (v : string) (os : list HTMLOptionElement.t)
  : option nat :=
  match os with
  | [] => None
  | o :: rest =>
      if HTMLOptionElement.value o =? v then Some 0%nat
      else option_map S (indexOfValue v rest)
  end.

(** The [value] setter: the first option with that value becomes the
    selected one; with no such option, none is selected. *)
Definition setValue (sel : t) (v : string) : t :=
  make (options sel) (indexOfValue v (options sel)).

End HTMLSelectElement.

(** ** The panel and its surroundings as one state *)

Record ProjectExtentsEditingExample : Type := mkPanel {
  _modelSelect : HTMLSelectElement.t;
  _status : string;
  _lastOffset : option Vector3d.t
}.

(** Everything outside the panel: the viewport it was given ([_vp]) and the
    log of the calls made so far. *)
Record World : Type := mkWorld {
  _vp : Viewport;
  calls : list ExternalCall
}.

Record State : Type := mkState {
  this : ProjectExtentsEditingExample;
  world : World
}.

(** ** Sequential reading of the [async] methods *)

Definition Promise (A : Type) : Type := State -> A * State.

Definition ret {A : Type} (a : A) : Promise A := fun s => (a, s).

Definition bind {A B : Type} (m : Promise A) (k : A -> Promise B)
  : Promise B :=
  fun s => let (a, s') := m s in k a s'.

Notation "x <- m ;; k" := (bind m (fun x => k))
  (at level 61, m at next level, right associativity).
Notation "m ;; k" := (bind m (fun _ => k))
  (at level 61, right associativity).

(** The state a method leaves behind. *)
Definition run {A : Type} (m : Promise A) (s : State) : State := snd (m s).

Definition gets {A : Type} (f : State -> A) : Promise A := fun s => (f s, s).

Definition modify (f : State -> State) : Promise unit := fun s => (tt, f s).

Definition withPanel (f : ProjectExtentsEditingExample ->
                          ProjectExtentsEditingExample) (s : State) : State :=
  mkState (f (this s)) (world s).

Definition withIModel (f : IModelConnection -> IModelConnection) (s : State)
  : State :=
  mkState (this s)
          (mkWorld (mkViewport (f (iModel (_vp (world s))))
                               (viewModels (_vp (world s))))
                   (calls (world s))).

(** Record one call at the end of the log. *)
Definition call (c : ExternalCall) : Promise unit :=
  modify (fun s => mkState (this s)
                           (mkWorld (_vp (world s)) (calls (world s) ++ [c]))).

(** ** The operations of the surrounding library

    Each one records its call; the editing-scope operations also change the
    connection. *)

(** Reading [imodel.editingScope] through the reference. *)
Definition getEditingScope (imodel : BriefcaseConnection)
  : Promise (option GraphicalEditingScope) :=
  gets (fun s => editingScope (iModel (_vp (world s)))).

(** Reading [imodel.projectExtents] through the reference. *)
Definition getProjectExtents (imodel : BriefcaseConnection)
  : Promise Range3d.t :=
  gets (fun s => projectExtents (iModel (_vp (world s)))).

(** Modelled from the spec: [enterEditingScope] belongs to the connection
    ("an editing-scope object supporting enter/exit", "the external
    connection's own editing-scope state (entered/exited)"): after it the
    connection has an editing scope. *)
Definition enterEditingScope (imodel : BriefcaseConnection) : Promise unit :=
  call EnterEditingScope ;;
  modify (withIModel (fun c =>
    mkIModel (isBriefcaseConnection c) (Some ActiveScope)
             (projectExtents c) (queryRows c))).

(** Modelled from the spec: [editingScope.exit] belongs to the connection
    (see [enterEditingScope]): after it the connection has no editing
    scope. *)
Definition exitEditingScope (imodel : BriefcaseConnection) : Promise unit :=
  call ExitEditingScope ;;
  modify (withIModel (fun c =>
    mkIModel (isBriefcaseConnection c) None
             (projectExtents c) (queryRows c))).

(** Modelled from the spec: [createQueryReader] is "a query execution
    interface returning rows asynchronously"; the rows are those the
    connection answers to the statement and its bindings. *)
Definition createQueryReader (imodel : BriefcaseConnection) (ecsql : string)
    (bindings : list Id64String) (rowFormat : QueryRowFormat)
  : Promise (list QueryRow.t) :=
  call (CreateQueryReader ecsql bindings rowFormat) ;;
  gets (fun s => queryRows (iModel (_vp (world s))) ecsql bindings).

(** Modelled from the spec: [transformElements] (EditingTools) is "a
    geometry transform application operating on identifier lists and a
    translation matrix"; only the call is recorded. *)
Definition transformElements (imodel : BriefcaseConnection)
    (ids : list string) (transform : Transform.t) : Promise unit :=
  call (TransformElements ids transform).

(** Modelled from the spec: [saveChanges] is "a change-save operation
    taking a description string"; only the call is recorded. *)
Definition saveChanges (imodel : BriefcaseConnection) (description : string)
  : Promise unit :=
  call (SaveChanges description).

(** Modelled from the spec: [IModelApp.viewManager.refreshForModifiedModels]
    is "a view manager capable of refreshing tiles for a list of model
    identifiers"; only the call is recorded. *)
Definition refreshForModifiedModels (modelIds : list Id64String)
  : Promise unit :=
  call (RefreshForModifiedModels modelIds).

(** ** The source, function by function *)

(** One turn of the [for await] loop of [getSampleElementIds]. *)
Definition pushIfString (elementIds : list string) (row : QueryRow.t)
  : list string :=
  match QueryRow.id row with
  | JsString s => elementIds ++ [s]
  | _ => elementIds
  end.

Definition sampleQuery : string :=
  "SELECT ECInstanceId FROM bis.GeometricElement3d WHERE Model.Id=? LIMIT 50".

Definition getSampleElementIds (imodel : BriefcaseConnection)
    (modelId : Id64String) : Promise (list string) :=
  reader <- createQueryReader imodel sampleQuery [modelId] UseJsPropertyNames ;;
  ret (fold_left pushIfString reader []).

Definition setStatus (message : string) : Promise unit :=
  modify (withPanel (fun p =>
    mkPanel (_modelSelect p) message (_lastOffset p))).

Definition getBriefcase : Promise (option BriefcaseConnection) :=
  gets (fun s =>
    if isBriefcaseConnection (iModel (_vp (world s)))
    then Some viewportIModel else None).

(** [this._modelSelect.value || undefined] *)
Definition selectedModelId : Promise (option Id64String) :=
  gets (fun s =>
    let value := HTMLSelectElement.value (_modelSelect (this s)) in
    if truthy value then Some value else None).

(** The callback [populateModels] passes to [forEachModel]. *)
Definition appendModelOption (sel : HTMLSelectElement.t) (model : ModelState.t)
  : HTMLSelectElement.t :=
  HTMLSelectElement.appendChild sel
    (HTMLOptionElement.make
       (ModelState.id model)
       (match ModelState.name model with
        | Some n => n
        | None => ModelState.id model
        end)).

Definition populateModels : Promise unit :=
  modify (fun s =>
    let current := HTMLSelectElement.value (_modelSelect (this s)) in
    let cleared := HTMLSelectElement.clear (_modelSelect (this s)) in
    let filled :=
      fold_left appendModelOption (viewModels (_vp (world s))) cleared in
    let final :=
      if truthy current then HTMLSelectElement.setValue filled current
      else filled in
    withPanel (fun p => mkPanel final (_status p) (_lastOffset p)) s).

Definition onViewChanged : Promise unit := populateModels.

Definition toggleEditingScope : Promise unit :=
  imodel <- getBriefcase ;;
  match imodel with
  | None => setStatus "Editing scope requires a writable briefcase."
  | Some imodel =>
      scope <- getEditingScope imodel ;;
      (match scope with
       | Some _ => exitEditingScope imodel
       | None => enterEditingScope imodel
       end) ;;
      scope' <- getEditingScope imodel ;;
      setStatus (match scope' with
                 | Some _ => "Editing scope is active."
                 | None => "Editing scope ended."
                 end)
  end.

Definition getOffset (imodel : BriefcaseConnection) : Promise Vector3d.t :=
  extents <- getProjectExtents imodel ;;
  ret (getRangeBasedOffset extents).

Definition moveSample (outside : bool) : Promise unit :=
  imodel <- getBriefcase ;;
  modelId <- selectedModelId ;;
  match imodel, modelId with
  | Some imodel, Some modelId =>
      scope <- getEditingScope imodel ;;
      (match scope with
       | None => enterEditingScope imodel
       | Some _ => ret tt
       end) ;;
      ids <- getSampleElementIds imodel modelId ;;
      if (List.length ids =? 0)%nat then
        setStatus "No geometric elements were found in the selected model."
      else
        lastOffset <- gets (fun s => _lastOffset (this s)) ;;
        offset <- (match lastOffset with
                   | Some v => ret v
                   | None => getOffset imodel
                   end) ;;
        let translation :=
          if outside then offset else Vector3d.negate offset in
        modify (withPanel (fun p =>
          mkPanel (_modelSelect p) (_status p) (Some offset))) ;;
        transformElements imodel ids (Transform.createTranslation translation) ;;
        if outside then
          setStatus "Moved sample geometry beyond the project extents while editing."
        else
          setStatus "Moved sample geometry back within the project extents without saving."
  | _, _ => setStatus "Select a model and ensure the iModel is writable."
  end.

Definition saveAndRefresh : Promise unit :=
  imodel <- getBriefcase ;;
  modelId <- selectedModelId ;;
  match imodel, modelId with
  | Some imodel, Some modelId =>
      saveChanges imodel "Project extents tile example" ;;
      refreshForModifiedModels [modelId] ;;
      setStatus "Saved the briefcase and refreshed tiles. Geometry outside project extents will stop requesting tiles."
  | _, _ => setStatus "Select a model and ensure the iModel is writable."
  end.

Definition requestTiles : Promise unit :=
  modelId <- selectedModelId ;;
  match modelId with
  | None => setStatus "Select a model before requesting tiles."
  | Some modelId =>
      refreshForModifiedModels [modelId] ;;
      setStatus "Requested tiles for the modified model without saving."
  end.

(** The constructor: the select is filled from the view, the status line
    gets its first text, and nothing has been called yet. *)
Definition construct (vp : Viewport) : State :=
  run (populateModels ;;
       setStatus "Select a model to exercise tile requests against project extents.")
      (mkState (mkPanel HTMLSelectElement.empty "" None) (mkWorld vp [])).

(** ** The panel in use *)

(** The five buttons the constructor creates. *)
Inductive Button : Type :=
| editingButton
| moveOutside
| saveButton
| moveBack
| requestTilesButton.

Definition handler (b : Button) : Promise unit :=
  match b with
  | editingButton => toggleEditingScope
  | moveOutside => moveSample true
  | saveButton => saveAndRefresh
  | moveBack => moveSample false
  | requestTilesButton => requestTiles
  end.

(** What can happen to a panel between its construction and its disposal:
    a button is pressed, the view changes, the user picks an entry of the
    drop-down, or the viewport changes under the panel (its connection's
    extents, contents or editing scope, its models). *)
Inductive step : State -> State -> Prop :=
| step_click (b : Button) (s : State) :
    step s (run (handler b) s)
| step_viewChanged (s : State) :
    step s (run onViewChanged s)
| step_select (i : nat) (s : State) :
    (i < List.length (HTMLSelectElement.options (_modelSelect (this s))))%nat ->
    step s (withPanel (fun p =>
      mkPanel (HTMLSelectElement.make
                 (HTMLSelectElement.options (_modelSelect p)) (Some i))
              (_status p) (_lastOffset p)) s)
| step_viewport (vp' : Viewport) (s : State) :
    step s (mkState (this s) (mkWorld vp' (calls (world s)))).

Inductive steps : State -> State -> Prop :=
| steps_refl (s : State) : steps s s
| steps_step (s s' s'' : State) : steps s s' -> step s' s'' -> steps s s''.

(** The states a panel can be in: those that follow its construction. *)
Definition reachable (s : State) : Prop :=
  exists vp : Viewport, steps (construct vp) s.

(** ** Observations used to state the properties *)

(** [getBriefcase()] is defined. *)
Definition hasBriefcase (s : State) : bool :=
  isBriefcaseConnection (iModel (_vp (world s))).

(** The value of the [selectedModelId] getter. *)
Definition selection (s : State) : option Id64String := fst (selectedModelId s).

(** The identifiers [getSampleElementIds] returns for a model. *)
Definition sampleIds (s : State) (modelId : Id64String) : list string :=
  fold_left pushIfString
            (queryRows (iModel (_vp (world s))) sampleQuery [modelId]) [].

Definition scopeOf (s : State) : option GraphicalEditingScope :=
  editingScope (iModel (_vp (world s))).

Definition statusText (s : State) : string := _status (this s).

Definition log (s : State) : list ExternalCall := calls (world s).

(** The transforms among a sequence of calls, in order. *)
Fixpoint appliedTransforms (cs : list ExternalCall) : list Transform.t :=
  match cs with
  | [] => []
  | TransformElements _ transform :: rest => transform :: appliedTransforms rest
  | _ :: rest => appliedTransforms rest
  end.

(** The state with an editing scope entered. *)
Definition entered (s : State) : State :=
  withIModel (fun c =>
    mkIModel (isBriefcaseConnection c) (Some ActiveScope)
             (projectExtents c) (queryRows c)) s.

(** The state in which [moveSample] runs its query: the one it was called
    in, with an editing scope entered if there was none. *)
Definition scoped (s : State) : State :=
  match scopeOf s with
  | Some _ => s
  | None => run (enterEditingScope viewportIModel) s
  end.

(** The offset [moveSample] uses: the cached one, or else the one computed
    from the project extents. *)
Definition offsetFor (s : State) : Vector3d.t :=
  match _lastOffset (this s) with
  | Some v => v
  | None => getRangeBasedOffset (projectExtents (iModel (_vp (world s))))
  end.

(** Two panels that differ at most in their status line. *)
Definition sameButStatus (p q : ProjectExtentsEditingExample) : Prop :=
  _modelSelect p = _modelSelect q /\ _lastOffset p = _lastOffset q.

(** ** Sample panels

    A connection with two models: "0x10" holds two geometric elements (and
    a row whose [id] is not a string), "0x11" holds none. *)

Definition sampleRows : list QueryRow.t :=
  [QueryRow.make (JsString "0x20"); QueryRow.make JsUndefined;
   QueryRow.make (JsString "0x21")].

Definition sampleAnswers (ecsql : string) (bindings : list Id64String)
  : list QueryRow.t :=
  match bindings with
  | [m] => if m =? "0x10" then sampleRows else []
  | _ => []
  end.

Definition sampleModels : list ModelState.t :=
  [ModelState.make "0x10" (Some "Site"); ModelState.make "0x11" None].

Definition unitCube : Range3d.t := Range3d.fromLengths 1 1 1.

Definition briefcaseViewport (scope : option GraphicalEditingScope)
    (extents : Range3d.t) : Viewport :=
  mkViewport (mkIModel true scope extents sampleAnswers) sampleModels.

Definition snapshotViewport : Viewport :=
  mkViewport (mkIModel false None unitCube sampleAnswers) sampleModels.

(** A fresh panel on a briefcase: "0x10" is selected, no scope is active. *)
Definition briefcasePanel : State := construct (briefcaseViewport None unitCube).

(** The same with an editing scope already entered. *)
Definition editingPanel : State :=
  construct (briefcaseViewport (Some ActiveScope) unitCube).

(** The same after the user picked the second model, "0x11". *)
Definition emptyModelPanel : State :=
  withPanel (fun p =>
    mkPanel (HTMLSelectElement.make
               (HTMLSelectElement.options (_modelSelect p)) (Some 1%nat))
            (_status p) (_lastOffset p)) briefcasePanel.

(** A fresh panel on a connection that is not a briefcase. *)
Definition snapshotPanel : State := construct snapshotViewport.

(** A fresh panel on a briefcase whose view shows no model. *)
Definition noModelPanel : State :=
  construct (mkViewport (mkIModel true None unitCube sampleAnswers) []).

(** The calls made on the way from [s] to [s']: what the log gained. *)
Definition newCalls (s s' : State) : list ExternalCall :=
  skipn (List.length (log s)) (log s').

(** A viewport like that of the sample briefcase, with a scope entered and
    much larger project extents. *)
Definition largerViewport : Viewport :=
  briefcaseViewport (Some ActiveScope)
                    (Range3d.fromLengths 100000 100000 100000).

(** The sample briefcase panel after "move outside", and then after its
    project extents have grown. *)
Definition movedPanel : State := run (moveSample true) briefcasePanel.

Definition movedPanelLargerExtents : State :=
  mkState (this movedPanel) (mkWorld largerViewport (calls (world movedPanel))).

(** A vector along the x axis. *)
Definition onXAxis (v : Vector3d.t) : Prop :=
  Vector3d.y v = 0%R /\ Vector3d.z v = 0%R.

(** The offsets and transforms of a panel all lie on the x axis. *)
Definition axisInvariant (s : State) : Prop :=
  (forall offset, _lastOffset (this s) = Some offset -> onXAxis offset) /\
  Forall (fun transform => onXAxis (Transform.origin transform))
         (appliedTransforms (log s)).

(** ** Further observations *)

(** The option [populateModels] creates for a model of the view. *)
Definition optionOf (model : ModelState.t) : HTMLOptionElement.t :=
  HTMLOptionElement.make
    (ModelState.id model)
    (match ModelState.name model with
     | Some n => n
     | None => ModelState.id model
     end).

(** The identifiers of the models of the view, in the order of the view. *)
Definition viewModelIds (s : State) : list Id64String :=
  map ModelState.id (viewModels (_vp (world s))).

(** The rows the connection answers to the sample query for a model. *)
Definition sampleRowsOf (s : State) (modelId : Id64String) : list QueryRow.t :=
  queryRows (iModel (_vp (world s))) sampleQuery [modelId].

(** A translation by a vector or by its negation. *)
Definition translatesBy (offset : Vector3d.t) (transform : Transform.t) : Prop :=
  transform = Transform.createTranslation offset \/
  transform = Transform.createTranslation (Vector3d.negate offset).

(** The transforms applied so far agree with the cached offset: none
    without one, and otherwise only translations by it or by its negation,
    the offset being one [getRangeBasedOffset] computed. *)
Definition offsetHistory (s : State) : Prop :=
  match _lastOffset (this s) with
  | None => appliedTransforms (log s) = []
  | Some offset =>
      (exists extents, offset = getRangeBasedOffset extents) /\
      Forall (translatesBy offset) (appliedTransforms (log s))
  end.

(** The shapes of the calls the panel makes. *)
Definition panelCall (c : ExternalCall) : Prop :=
  match c with
  | EnterEditingScope => True
  | ExitEditingScope => True
  | CreateQueryReader ecsql bindings rowFormat =>
      ecsql = sampleQuery /\ exists m, bindings = [m] /\ m <> ""
  | TransformElements ids transform => ids <> []
  | SaveChanges description => description = "Project extents tile example"
  | RefreshForModifiedModels modelIds => exists m, modelIds = [m] /\ m <> ""
  end.

(** The sample briefcase panel after its view lost both models and shows
    another one, before and after the panel is told of the view change. *)
Definition otherModels : list ModelState.t := [ModelState.make "0x30" None].

Definition staleSelectionPanel : State :=
  mkState (this briefcasePanel)
          (mkWorld (mkViewport (iModel (_vp (world briefcasePanel))) otherModels)
                   (calls (world briefcasePanel))).

(** ** Facts about the geometry *)

Section GeometryFacts.

Local Open Scope R_scope.

Lemma Rleb_true (a b : R) : a <= b -> Rleb a b = true.
Proof.
  intros H; unfold Rleb; destruct (Rle_dec a b); [reflexivity | contradiction].
Qed.

Lemma Rleb_false (a b : R) : b < a -> Rleb a b = false.
Proof. intros H; unfold Rleb; destruct (Rle_dec a b); [lra | reflexivity]. Qed.

Lemma magnitude_on_x_axis (s : R) :
  0 <= s -> Vector3d.magnitude (Vector3d.create s 0 0) = s.
Proof.
  intros Hs; unfold Vector3d.magnitude; cbn.
  replace (s * s + 0 * 0 + 0 * 0) with (s * s) by ring.
  now apply sqrt_square.
Qed.

Lemma magnitude_defaultOffset : Vector3d.magnitude defaultOffset = 50000.
Proof. unfold defaultOffset; apply magnitude_on_x_axis; lra. Qed.

Lemma getRangeBasedOffset_degenerate (extents : Range3d.t) :
  largestLength extents <= 0 ->
  getRangeBasedOffset extents = Vector3d.create 50000 0 0.
Proof.
  intros H; unfold getRangeBasedOffset; cbv zeta.
  rewrite (Rleb_true _ _ H); reflexivity.
Qed.

Lemma getRangeBasedOffset_positive (extents : Range3d.t) :
  0 < largestLength extents ->
  getRangeBasedOffset extents =
  Vector3d.create (Rmax (largestLength extents * 2) 50000) 0 0.
Proof.
  intros H; unfold getRangeBasedOffset; cbv zeta.
  rewrite (Rleb_false _ _ H), magnitude_defaultOffset; reflexivity.
Qed.

Lemma largestLength_cube (a : R) :
  largestLength (Range3d.fromLengths a a a) = a.
Proof.
  unfold largestLength, Math_max3; cbn.
  unfold Rmax; repeat destruct (Rle_dec _ _); lra.
Qed.

Lemma getRangeBasedOffset_onXAxis (extents : Range3d.t) :
  onXAxis (getRangeBasedOffset extents).
Proof.
  unfold getRangeBasedOffset, onXAxis; cbv zeta.
  destruct (Rleb (largestLength extents) 0); cbn; split; reflexivity.
Qed.

Lemma negate_onXAxis (v : Vector3d.t) : onXAxis v -> onXAxis (Vector3d.negate v).
Proof.
  unfold onXAxis; intros [Hy Hz]; cbn; rewrite Hy, Hz; split; lra.
Qed.

(** C1 (as stated, refuted): for the unit cube the largest dimension is 1,
    strictly positive, yet the offset has magnitude 50000 and not 2. *)
Lemma unit_cube_offset_is_fallback :
  0 < largestLength (Range3d.fromLengths 1 1 1) /\
  Vector3d.magnitude (getRangeBasedOffset (Range3d.fromLengths 1 1 1)) <>
  2 * largestLength (Range3d.fromLengths 1 1 1).
Proof.
  assert (H : 0 < largestLength (Range3d.fromLengths 1 1 1))
    by (rewrite largestLength_cube; lra).
  split; [exact H |].
  rewrite (getRangeBasedOffset_positive _ H), largestLength_cube.
  rewrite Rmax_right by lra.
  rewrite magnitude_on_x_axis by lra.
  lra.
Qed.

(** C1 (amended): when the largest dimension [L] of the extents is strictly
    positive the offset has magnitude [max (2 L) 50000], the larger of twice
    that dimension and the fallback magnitude, hence exactly [2 L] as soon
    as [L >= 25000]; when [L] is zero or negative the magnitude is that of
    the default offset (50000, 0, 0), which is 50000. *)
Theorem getRangeBasedOffset_magnitude (extents : Range3d.t) :
  (0 < largestLength extents ->
   Vector3d.magnitude (getRangeBasedOffset extents) =
   Rmax (2 * largestLength extents) 50000) /\
  (25000 <= largestLength extents ->
   Vector3d.magnitude (getRangeBasedOffset extents) =
   2 * largestLength extents) /\
  (largestLength extents <= 0 ->
   Vector3d.magnitude (getRangeBasedOffset extents) =
   Vector3d.magnitude defaultOffset /\
   Vector3d.magnitude defaultOffset = 50000).
Proof.
  assert (Hpos : 0 < largestLength extents ->
                 Vector3d.magnitude (getRangeBasedOffset extents) =
                 Rmax (2 * largestLength extents) 50000).
  { intros H. rewrite (getRangeBasedOffset_positive _ H).
    rewrite (Rmult_comm (largestLength extents) 2).
    apply magnitude_on_x_axis.
    apply Rle_trans with 50000; [lra | apply Rmax_r]. }
  split; [exact Hpos | split].
  - intros H. rewrite Hpos by lra. apply Rmax_left; lra.
  - intros H. rewrite (getRangeBasedOffset_degenerate _ H).
    split; [reflexivity | exact magnitude_defaultOffset].
Qed.

(** The amended statement at three ranges: a unit cube, a cube of side
    30000 and a range of no extent. *)
Lemma getRangeBasedOffset_magnitude_witness :
  Vector3d.magnitude (getRangeBasedOffset (Range3d.fromLengths 1 1 1)) =
  Rmax (2 * largestLength (Range3d.fromLengths 1 1 1)) 50000 /\
  Vector3d.magnitude (getRangeBasedOffset (Range3d.fromLengths 30000 30000 30000)) =
  2 * largestLength (Range3d.fromLengths 30000 30000 30000) /\
  Vector3d.magnitude (getRangeBasedOffset (Range3d.fromLengths 0 0 0)) =
  Vector3d.magnitude defaultOffset.
Proof.
  split; [| split].
  - apply (proj1 (getRangeBasedOffset_magnitude (Range3d.fromLengths 1 1 1))).
    rewrite largestLength_cube; lra.
  - apply (proj1 (proj2 (getRangeBasedOffset_magnitude
                           (Range3d.fromLengths 30000 30000 30000)))).
    rewrite largestLength_cube; lra.
  - apply (proj2 (proj2 (getRangeBasedOffset_magnitude
                           (Range3d.fromLengths 0 0 0)))).
    rewrite largestLength_cube; lra.
Defined.

End GeometryFacts.

(** ** Running the methods *)

Ltac unfold_methods :=
  unfold run, handler, toggleEditingScope, moveSample, saveAndRefresh,
    requestTiles, onViewChanged, populateModels, getOffset,
    getSampleElementIds, createQueryReader, transformElements, saveChanges,
    refreshForModifiedModels, enterEditingScope, exitEditingScope,
    getEditingScope, getProjectExtents, getBriefcase, selectedModelId,
    setStatus, call, bind, ret, gets, modify.

Ltac unfold_observations :=
  unfold hasBriefcase, selection, selectedModelId, sampleIds, scopeOf,
    statusText, log, entered, gets in *;
  cbn [fst snd] in *.

Ltac project :=
  cbn [fst snd this world _vp calls iModel viewModels isBriefcaseConnection
       editingScope projectExtents queryRows _modelSelect _status _lastOffset
       withPanel withIModel].

Lemma appliedTransforms_app (cs ds : list ExternalCall) :
  appliedTransforms (cs ++ ds) = appliedTransforms cs ++ appliedTransforms ds.
Proof.
  induction cs as [| c cs IH]; [reflexivity |].
  destruct c; cbn; rewrite IH; reflexivity.
Qed.

(** Without a briefcase or without a selected model [moveSample] only
    writes its status line. *)
Lemma moveSample_refused (outside : bool) (s : State) :
  hasBriefcase s = false \/ selection s = None ->
  run (moveSample outside) s =
  run (setStatus "Select a model and ensure the iModel is writable.") s.
Proof.
  unfold_observations. intros H. unfold_methods. project.
  destruct H as [H | H]; rewrite H.
  - reflexivity.
  - destruct (isBriefcaseConnection _); reflexivity.
Qed.

Lemma scoped_log (s : State) :
  log (scoped s) =
  log s ++ match scopeOf s with Some _ => [] | None => [EnterEditingScope] end.
Proof.
  unfold scoped, scopeOf, log. destruct (editingScope _).
  - now rewrite app_nil_r.
  - reflexivity.
Qed.

Lemma scoped_active (s : State) : scopeOf (scoped s) <> None.
Proof.
  unfold scoped. destruct (scopeOf s) eqn:E.
  - rewrite E; discriminate.
  - discriminate.
Qed.

Lemma scoped_panel (s : State) : this (scoped s) = this s.
Proof. unfold scoped. destruct (scopeOf s); reflexivity. Qed.

Lemma scoped_sampleIds (s : State) (m : Id64String) :
  sampleIds (scoped s) m = sampleIds s m.
Proof. unfold scoped. destruct (scopeOf s); reflexivity. Qed.

Lemma scoped_extents (s : State) :
  projectExtents (iModel (_vp (world (scoped s)))) =
  projectExtents (iModel (_vp (world s))).
Proof. unfold scoped. destruct (scopeOf s); reflexivity. Qed.

(** With a briefcase and a selected model whose query yields no identifier
    [moveSample] stops after the query. *)
Lemma moveSample_no_elements (outside : bool) (s : State) (m : Id64String) :
  hasBriefcase s = true -> selection s = Some m -> sampleIds s m = [] ->
  run (moveSample outside) s =
  run (setStatus "No geometric elements were found in the selected model.")
      (run (call (CreateQueryReader sampleQuery [m] UseJsPropertyNames))
           (scoped s)).
Proof.
  unfold scoped. unfold_observations. intros Hb Hm Hids. unfold_methods. project.
  rewrite Hb, Hm.
  destruct (editingScope (iModel (_vp (world s)))); project;
    rewrite Hids; reflexivity.
Qed.

(** With a briefcase, a selected model and at least one identifier
    [moveSample] caches the offset and applies the translation. *)
Lemma moveSample_moves (outside : bool) (s : State) (m : Id64String) :
  hasBriefcase s = true -> selection s = Some m -> sampleIds s m <> [] ->
  run (moveSample outside) s =
  run (setStatus
         (if outside
          then "Moved sample geometry beyond the project extents while editing."
          else "Moved sample geometry back within the project extents without saving."))
      (run (call (TransformElements (sampleIds s m)
                    (Transform.createTranslation
                       (if outside then offsetFor s
                        else Vector3d.negate (offsetFor s)))))
           (withPanel (fun p => mkPanel (_modelSelect p) (_status p)
                                        (Some (offsetFor s)))
              (run (call (CreateQueryReader sampleQuery [m] UseJsPropertyNames))
                   (scoped s)))).
Proof.
  unfold scoped, offsetFor. unfold_observations. intros Hb Hm Hids.
  unfold_methods. project. rewrite Hb, Hm.
  destruct (editingScope (iModel (_vp (world s)))); project;
    (destruct (fold_left pushIfString _ []) eqn:E; [contradiction |]);
    cbn [List.length Nat.eqb]; project;
    destruct (_lastOffset (this s)); project; destruct outside; reflexivity.
Qed.

Lemma saveAndRefresh_refused (s : State) :
  hasBriefcase s = false \/ selection s = None ->
  run saveAndRefresh s =
  run (setStatus "Select a model and ensure the iModel is writable.") s.
Proof.
  unfold_observations. intros H. unfold_methods. project.
  destruct H as [H | H]; rewrite H.
  - reflexivity.
  - destruct (isBriefcaseConnection _); reflexivity.
Qed.

Lemma saveAndRefresh_done (s : State) (m : Id64String) :
  hasBriefcase s = true -> selection s = Some m ->
  run saveAndRefresh s =
  run (setStatus "Saved the briefcase and refreshed tiles. Geometry outside project extents will stop requesting tiles.")
      (run (call (RefreshForModifiedModels [m]))
           (run (call (SaveChanges "Project extents tile example")) s)).
Proof.
  unfold_observations. intros Hb Hm. unfold_methods. project.
  rewrite Hb, Hm. reflexivity.
Qed.

Lemma requestTiles_refused (s : State) :
  selection s = None ->
  run requestTiles s =
  run (setStatus "Select a model before requesting tiles.") s.
Proof.
  unfold_observations. intros H. unfold_methods. project.
  rewrite H. reflexivity.
Qed.

Lemma requestTiles_done (s : State) (m : Id64String) :
  selection s = Some m ->
  run requestTiles s =
  run (setStatus "Requested tiles for the modified model without saving.")
      (run (call (RefreshForModifiedModels [m])) s).
Proof.
  unfold_observations. intros H. unfold_methods. project.
  rewrite H. reflexivity.
Qed.

Lemma toggleEditingScope_refused (s : State) :
  hasBriefcase s = false ->
  run toggleEditingScope s =
  run (setStatus "Editing scope requires a writable briefcase.") s.
Proof.
  unfold_observations. intros H. unfold_methods. project.
  rewrite H. reflexivity.
Qed.

Lemma toggleEditingScope_exits (s : State) (scope : GraphicalEditingScope) :
  hasBriefcase s = true -> scopeOf s = Some scope ->
  run toggleEditingScope s =
  run (setStatus "Editing scope ended.")
      (run (exitEditingScope viewportIModel) s).
Proof.
  unfold_observations. intros Hb Hs. unfold_methods. project.
  rewrite Hb, Hs. reflexivity.
Qed.

Lemma toggleEditingScope_enters (s : State) :
  hasBriefcase s = true -> scopeOf s = None ->
  run toggleEditingScope s =
  run (setStatus "Editing scope is active.")
      (run (enterEditingScope viewportIModel) s).
Proof.
  unfold_observations. intros Hb Hs. unfold_methods. project.
  rewrite Hb, Hs. reflexivity.
Qed.

(** [setStatus] writes the status line and nothing else. *)
Lemma setStatus_effect (message : string) (s : State) :
  statusText (run (setStatus message) s) = message /\
  world (run (setStatus message) s) = world s /\
  _modelSelect (this (run (setStatus message) s)) = _modelSelect (this s) /\
  _lastOffset (this (run (setStatus message) s)) = _lastOffset (this s).
Proof. repeat split. Qed.

Lemma call_effect (c : ExternalCall) (s : State) :
  log (run (call c) s) = log s ++ [c] /\
  _vp (world (run (call c) s)) = _vp (world s) /\
  this (run (call c) s) = this s.
Proof. repeat split. Qed.

(** An empty drop-down has the empty string as its value, whatever its
    selected index. *)
Lemma empty_select_value (sel : HTMLSelectElement.t) :
  HTMLSelectElement.options sel = [] -> HTMLSelectElement.value sel = "".
Proof.
  intros H. unfold HTMLSelectElement.value. rewrite H.
  destruct (HTMLSelectElement.selectedIndex sel) as [[| i] |]; reflexivity.
Qed.

Lemma empty_select_selection (s : State) :
  HTMLSelectElement.options (_modelSelect (this s)) = [] -> selection s = None.
Proof.
  intros H. unfold_observations. now rewrite (empty_select_value _ H).
Qed.

(** The getter never answers the empty string. *)
Lemma selection_truthy (s : State) (m : Id64String) :
  selection s = Some m -> m <> "".
Proof.
  unfold_observations.
  destruct (truthy (HTMLSelectElement.value _)) eqn:E; [| discriminate].
  intros H; injection H as <-. intros Hm. rewrite Hm in E. discriminate.
Qed.

(** A view without models leaves the drop-down empty. *)
Lemma populateModels_no_models (s : State) :
  viewModels (_vp (world s)) = [] ->
  HTMLSelectElement.options (_modelSelect (this (run populateModels s))) = [].
Proof.
  intros H. unfold_methods. project. rewrite H. cbn [fold_left].
  destruct (truthy _); reflexivity.
Qed.

(** ** The sample panels, observed *)

Lemma briefcasePanel_facts :
  hasBriefcase briefcasePanel = true /\
  selection briefcasePanel = Some "0x10" /\
  scopeOf briefcasePanel = None /\
  sampleIds briefcasePanel "0x10" = ["0x20"; "0x21"] /\
  log briefcasePanel = [].
Proof. repeat split. Qed.

Lemma editingPanel_facts :
  hasBriefcase editingPanel = true /\
  selection editingPanel = Some "0x10" /\
  scopeOf editingPanel = Some ActiveScope.
Proof. repeat split. Qed.

Lemma emptyModelPanel_facts :
  hasBriefcase emptyModelPanel = true /\
  selection emptyModelPanel = Some "0x11" /\
  scopeOf emptyModelPanel = None /\
  sampleIds emptyModelPanel "0x11" = [].
Proof. repeat split. Qed.

Lemma snapshotPanel_facts :
  hasBriefcase snapshotPanel = false /\
  selection snapshotPanel = Some "0x10".
Proof. repeat split. Qed.

Lemma noModelPanel_facts :
  hasBriefcase noModelPanel = true /\
  HTMLSelectElement.options (_modelSelect (this noModelPanel)) = [].
Proof. repeat split. Qed.

(** What a completed [moveSample] adds to the log. *)
Lemma moveSample_moves_log (outside : bool) (s : State) (m : Id64String) :
  hasBriefcase s = true -> selection s = Some m -> sampleIds s m <> [] ->
  log (run (moveSample outside) s) =
  log s ++
  match scopeOf s with Some _ => [] | None => [EnterEditingScope] end ++
  [CreateQueryReader sampleQuery [m] UseJsPropertyNames;
   TransformElements (sampleIds s m)
     (Transform.createTranslation
        (if outside then offsetFor s else Vector3d.negate (offsetFor s)))].
Proof.
  intros Hb Hm Hne. rewrite (moveSample_moves outside s m Hb Hm Hne).
  match goal with
  | |- log (run (setStatus _)
              (run (call ?c) (withPanel _ (run (call ?q) _)))) = _ =>
      change ((log (scoped s) ++ [q]) ++ [c] =
              log s ++ match scopeOf s with
                       | Some _ => []
                       | None => [EnterEditingScope]
                       end ++ [q; c])
  end.
  rewrite scoped_log, <- !app_assoc. reflexivity.
Qed.

Lemma moveSample_moves_lastOffset (outside : bool) (s : State)
    (m : Id64String) :
  hasBriefcase s = true -> selection s = Some m -> sampleIds s m <> [] ->
  _lastOffset (this (run (moveSample outside) s)) = Some (offsetFor s).
Proof.
  intros Hb Hm Hne. rewrite (moveSample_moves outside s m Hb Hm Hne).
  reflexivity.
Qed.

(** ** The handlers' contracts *)

(** C4: when [moveSample] (in either direction) gets as far as its query
    and the query yields no identifier for the selected model, it sets the
    no-elements status and returns: no transform call is made, and the
    cached offset is left as it was. *)
Theorem moveSample_without_elements (outside : bool) (s : State)
    (m : Id64String) :
  hasBriefcase s = true -> selection s = Some m -> sampleIds s m = [] ->
  statusText (run (moveSample outside) s) =
    "No geometric elements were found in the selected model." /\
  appliedTransforms (log (run (moveSample outside) s)) =
    appliedTransforms (log s) /\
  (forall ids transform,
      ~ In (TransformElements ids transform)
           (newCalls s (run (moveSample outside) s))) /\
  _lastOffset (this (run (moveSample outside) s)) = _lastOffset (this s).
Proof.
  intros Hb Hm Hids.
  rewrite (moveSample_no_elements outside s m Hb Hm Hids).
  assert (Hlog : log (run (setStatus
             "No geometric elements were found in the selected model.")
             (run (call (CreateQueryReader sampleQuery [m] UseJsPropertyNames))
                  (scoped s))) =
          log s ++ match scopeOf s with
                   | Some _ => []
                   | None => [EnterEditingScope]
                   end ++ [CreateQueryReader sampleQuery [m] UseJsPropertyNames]).
  { change (log (scoped s) ++
            [CreateQueryReader sampleQuery [m] UseJsPropertyNames] = 
            log s ++ match scopeOf s with
                   | Some _ => []
                   | None => [EnterEditingScope]
                   end ++ [CreateQueryReader sampleQuery [m] UseJsPropertyNames]).
    rewrite scoped_log, <- app_assoc. reflexivity. }
  split; [reflexivity | split; [| split]].
  - rewrite Hlog, appliedTransforms_app.
    destruct (scopeOf s); cbn; now rewrite app_nil_r.
  - intros ids transform. unfold newCalls.
    rewrite Hlog, skipn_app, skipn_all, Nat.sub_diag.
    cbn [app skipn]. destruct (scopeOf s); cbn; intros H;
      repeat (destruct H as [H | H]; [discriminate |]); exact H.
  - change (_lastOffset (this (scoped s)) = _lastOffset (this s)).
    now rewrite scoped_panel.
Qed.

Lemma moveSample_without_elements_witness :
  statusText (run (moveSample true) emptyModelPanel) =
    "No geometric elements were found in the selected model." /\
  appliedTransforms (log (run (moveSample true) emptyModelPanel)) =
    appliedTransforms (log emptyModelPanel) /\
  (forall ids transform,
      ~ In (TransformElements ids transform)
           (newCalls emptyModelPanel
                     (run (moveSample true) emptyModelPanel))) /\
  _lastOffset (this (run (moveSample true) emptyModelPanel)) =
    _lastOffset (this emptyModelPanel).
Proof.
  apply (moveSample_without_elements true emptyModelPanel "0x11");
    reflexivity.
Defined.

(** C6: if the briefcase connection or the selected model is absent,
    [moveSample] sets its error status and returns with nothing called and
    nothing changed outside the panel; when both are present and no editing
    scope is active, the first thing it does is enter one, and the query
    comes after. *)
Theorem moveSample_preconditions (outside : bool) (s : State) :
  (hasBriefcase s = false \/ selection s = None ->
   statusText (run (moveSample outside) s) =
     "Select a model and ensure the iModel is writable." /\
   world (run (moveSample outside) s) = world s /\
   sameButStatus (this (run (moveSample outside) s)) (this s)) /\
  (forall m : Id64String,
      hasBriefcase s = true -> selection s = Some m -> scopeOf s = None ->
      exists rest : list ExternalCall,
        log (run (moveSample outside) s) =
        log s ++ EnterEditingScope
              :: CreateQueryReader sampleQuery [m] UseJsPropertyNames :: rest).
Proof.
  split.
  - intros H. rewrite (moveSample_refused outside s H). repeat split.
  - intros m Hb Hm Hs.
    destruct (sampleIds s m) as [| i ids] eqn:Hids.
    + exists []. rewrite (moveSample_no_elements outside s m Hb Hm Hids).
      change (log (scoped s) ++
              [CreateQueryReader sampleQuery [m] UseJsPropertyNames] =
              log s ++ [EnterEditingScope;
                        CreateQueryReader sampleQuery [m] UseJsPropertyNames]).
      rewrite scoped_log, Hs, <- app_assoc. reflexivity.
    + assert (Hne : sampleIds s m <> []) by (rewrite Hids; discriminate).
      eexists. rewrite (moveSample_moves_log outside s m Hb Hm Hne), Hs.
      rewrite Hids. reflexivity.
Qed.

Lemma moveSample_preconditions_witness :
  (statusText (run (moveSample false) snapshotPanel) =
     "Select a model and ensure the iModel is writable." /\
   world (run (moveSample false) snapshotPanel) = world snapshotPanel /\
   sameButStatus (this (run (moveSample false) snapshotPanel))
                 (this snapshotPanel)) /\
  (exists rest : list ExternalCall,
      log (run (moveSample true) briefcasePanel) =
      log briefcasePanel ++ EnterEditingScope
        :: CreateQueryReader sampleQuery ["0x10"] UseJsPropertyNames :: rest).
Proof.
  split.
  - apply (proj1 (moveSample_preconditions false snapshotPanel)).
    left; reflexivity.
  - apply (proj2 (moveSample_preconditions true briefcasePanel) "0x10");
      reflexivity.
Defined.

(** C9: with a briefcase, a selected model and no active editing scope,
    [moveSample] enters an editing scope before it runs the element query;
    when the query then finds no element the handler returns with the
    no-elements status and the scope it entered is still active (it is not
    exited). *)
Theorem moveSample_early_return_keeps_scope (outside : bool) (s : State)
    (m : Id64String) :
  hasBriefcase s = true -> selection s = Some m -> scopeOf s = None ->
  sampleIds s m = [] ->
  log (run (moveSample outside) s) =
    log s ++ [EnterEditingScope;
              CreateQueryReader sampleQuery [m] UseJsPropertyNames] /\
  scopeOf (run (moveSample outside) s) = Some ActiveScope /\
  statusText (run (moveSample outside) s) =
    "No geometric elements were found in the selected model.".
Proof.
  intros Hb Hm Hs Hids.
  rewrite (moveSample_no_elements outside s m Hb Hm Hids).
  split; [| split; [| reflexivity]].
  - change (log (scoped s) ++
            [CreateQueryReader sampleQuery [m] UseJsPropertyNames] =
            log s ++ [EnterEditingScope;
                      CreateQueryReader sampleQuery [m] UseJsPropertyNames]).
    rewrite scoped_log, Hs, <- app_assoc. reflexivity.
  - change (scopeOf (scoped s) = Some ActiveScope).
    unfold scoped. rewrite Hs. reflexivity.
Qed.

Lemma moveSample_early_return_keeps_scope_witness :
  log (run (moveSample false) emptyModelPanel) =
    log emptyModelPanel ++
    [EnterEditingScope;
     CreateQueryReader sampleQuery ["0x11"] UseJsPropertyNames] /\
  scopeOf (run (moveSample false) emptyModelPanel) = Some ActiveScope /\
  statusText (run (moveSample false) emptyModelPanel) =
    "No geometric elements were found in the selected model.".
Proof.
  apply (moveSample_early_return_keeps_scope false emptyModelPanel "0x11");
    reflexivity.
Defined.

(** C5: without a briefcase [toggleEditingScope] sets a status message and
    does nothing else; with one it exits the editing scope if one is
    active and otherwise enters a new one (that single call and no other),
    and the status line then reports the state of the scope as it is after
    the call. *)
Theorem toggleEditingScope_contract (s : State) :
  (hasBriefcase s = false ->
   statusText (run toggleEditingScope s) =
     "Editing scope requires a writable briefcase." /\
   world (run toggleEditingScope s) = world s /\
   sameButStatus (this (run toggleEditingScope s)) (this s)) /\
  (hasBriefcase s = true ->
   log (run toggleEditingScope s) =
     log s ++ [match scopeOf s with
               | Some _ => ExitEditingScope
               | None => EnterEditingScope
               end] /\
   scopeOf (run toggleEditingScope s) =
     match scopeOf s with
     | Some _ => None
     | None => Some ActiveScope
     end /\
   statusText (run toggleEditingScope s) =
     match scopeOf (run toggleEditingScope s) with
     | Some _ => "Editing scope is active."
     | None => "Editing scope ended."
     end).
Proof.
  split; intros Hb.
  - rewrite (toggleEditingScope_refused s Hb). repeat split.
  - destruct (scopeOf s) as [scope |] eqn:Hs.
    + rewrite (toggleEditingScope_exits s scope Hb Hs). repeat split.
    + rewrite (toggleEditingScope_enters s Hb Hs). repeat split.
Qed.

Lemma toggleEditingScope_contract_witness :
  (statusText (run toggleEditingScope snapshotPanel) =
     "Editing scope requires a writable briefcase." /\
   world (run toggleEditingScope snapshotPanel) = world snapshotPanel /\
   sameButStatus (this (run toggleEditingScope snapshotPanel))
                 (this snapshotPanel)) /\
  (log (run toggleEditingScope editingPanel) =
     log editingPanel ++ [match scopeOf editingPanel with
                          | Some _ => ExitEditingScope
                          | None => EnterEditingScope
                          end] /\
   scopeOf (run toggleEditingScope editingPanel) =
     match scopeOf editingPanel with
     | Some _ => None
     | None => Some ActiveScope
     end /\
   statusText (run toggleEditingScope editingPanel) =
     match scopeOf (run toggleEditingScope editingPanel) with
     | Some _ => "Editing scope is active."
     | None => "Editing scope ended."
     end).
Proof.
  split.
  - apply (proj1 (toggleEditingScope_contract snapshotPanel)); reflexivity.
  - apply (proj2 (toggleEditingScope_contract editingPanel)); reflexivity.
Defined.

(** C7: with a briefcase and a selected model [saveAndRefresh] first saves
    the pending changes under the description "Project extents tile
    example", then asks for a tile refresh of exactly that model, then
    reports completion; if either is absent it sets its error status and
    neither saves nor refreshes. *)
Theorem saveAndRefresh_contract (s : State) :
  (forall m : Id64String,
      hasBriefcase s = true -> selection s = Some m ->
      log (run saveAndRefresh s) =
        log s ++ [SaveChanges "Project extents tile example";
                  RefreshForModifiedModels [m]] /\
      statusText (run saveAndRefresh s) =
        "Saved the briefcase and refreshed tiles. Geometry outside project extents will stop requesting tiles." /\
      _vp (world (run saveAndRefresh s)) = _vp (world s) /\
      sameButStatus (this (run saveAndRefresh s)) (this s)) /\
  (hasBriefcase s = false \/ selection s = None ->
   statusText (run saveAndRefresh s) =
     "Select a model and ensure the iModel is writable." /\
   world (run saveAndRefresh s) = world s /\
   sameButStatus (this (run saveAndRefresh s)) (this s)).
Proof.
  split.
  - intros m Hb Hm. rewrite (saveAndRefresh_done s m Hb Hm).
    split; [| repeat split].
    change ((log s ++ [SaveChanges "Project extents tile example"]) ++
            [RefreshForModifiedModels [m]] =
            log s ++ [SaveChanges "Project extents tile example";
                      RefreshForModifiedModels [m]]).
    now rewrite <- app_assoc.
  - intros H. rewrite (saveAndRefresh_refused s H). repeat split.
Qed.

Lemma saveAndRefresh_contract_witness :
  (log (run saveAndRefresh briefcasePanel) =
     log briefcasePanel ++ [SaveChanges "Project extents tile example";
                            RefreshForModifiedModels ["0x10"]] /\
   statusText (run saveAndRefresh briefcasePanel) =
     "Saved the briefcase and refreshed tiles. Geometry outside project extents will stop requesting tiles." /\
   _vp (world (run saveAndRefresh briefcasePanel)) =
     _vp (world briefcasePanel) /\
   sameButStatus (this (run saveAndRefresh briefcasePanel))
                 (this briefcasePanel)) /\
  (statusText (run saveAndRefresh snapshotPanel) =
     "Select a model and ensure the iModel is writable." /\
   world (run saveAndRefresh snapshotPanel) = world snapshotPanel /\
   sameButStatus (this (run saveAndRefresh snapshotPanel))
                 (this snapshotPanel)).
Proof.
  split.
  - apply (proj1 (saveAndRefresh_contract briefcasePanel) "0x10");
      reflexivity.
  - apply (proj2 (saveAndRefresh_contract snapshotPanel)).
    left; reflexivity.
Defined.

(** C10: when the drop-down holds no option, its value is the empty string
    and [selectedModelId] is undefined, so [moveSample] (either direction),
    [saveAndRefresh] and [requestTiles] each set their precondition-failure
    status and call nothing: the world outside the panel is left as it
    was. *)
Theorem empty_model_list_blocks_actions (s : State) :
  HTMLSelectElement.options (_modelSelect (this s)) = [] ->
  HTMLSelectElement.value (_modelSelect (this s)) = "" /\
  selection s = None /\
  (forall outside : bool,
      statusText (run (moveSample outside) s) =
        "Select a model and ensure the iModel is writable." /\
      world (run (moveSample outside) s) = world s) /\
  (statusText (run saveAndRefresh s) =
     "Select a model and ensure the iModel is writable." /\
   world (run saveAndRefresh s) = world s) /\
  (statusText (run requestTiles s) =
     "Select a model before requesting tiles." /\
   world (run requestTiles s) = world s).
Proof.
  intros H. pose proof (empty_select_selection s H) as Hsel.
  split; [exact (empty_select_value _ H) | split; [exact Hsel |]].
  split; [| split].
  - intros outside. rewrite (moveSample_refused outside s (or_intror Hsel)).
    split; reflexivity.
  - rewrite (saveAndRefresh_refused s (or_intror Hsel)). split; reflexivity.
  - rewrite (requestTiles_refused s Hsel). split; reflexivity.
Qed.

Lemma empty_model_list_blocks_actions_witness :
  HTMLSelectElement.value (_modelSelect (this noModelPanel)) = "" /\
  selection noModelPanel = None /\
  (forall outside : bool,
      statusText (run (moveSample outside) noModelPanel) =
        "Select a model and ensure the iModel is writable." /\
      world (run (moveSample outside) noModelPanel) = world noModelPanel) /\
  (statusText (run saveAndRefresh noModelPanel) =
     "Select a model and ensure the iModel is writable." /\
   world (run saveAndRefresh noModelPanel) = world noModelPanel) /\
  (statusText (run requestTiles noModelPanel) =
     "Select a model before requesting tiles." /\
   world (run requestTiles noModelPanel) = world noModelPanel).
Proof.
  apply (empty_model_list_blocks_actions noModelPanel). reflexivity.
Defined.

(** C2 (as stated, refuted): on a connection that is not a briefcase, with
    a model selected, the request-tiles button asks the view manager for a
    tile refresh, so the world outside the panel does change. *)
Lemma requestTiles_without_briefcase_refreshes :
  hasBriefcase snapshotPanel = false /\
  log (run (handler requestTilesButton) snapshotPanel) =
    log snapshotPanel ++ [RefreshForModifiedModels ["0x10"]] /\
  world (run (handler requestTilesButton) snapshotPanel) <>
    world snapshotPanel.
Proof.
  split; [reflexivity | split; [reflexivity |]].
  intros H. apply (f_equal calls) in H. discriminate H.
Qed.

(** C2 (amended): when no briefcase connection is present, toggling the
    editing scope, moving the sample outside, saving and refreshing, and
    moving the sample back leave everything outside the panel unchanged and
    change at most the status text.  Requesting tiles does not look at the
    connection: it does the same when no model is selected, and with a
    selected model it makes exactly one call, a tile refresh for that
    model, and changes nothing else but the status text. *)
Theorem no_briefcase_frame (s : State) :
  hasBriefcase s = false ->
  (forall b : Button,
      b <> requestTilesButton ->
      world (run (handler b) s) = world s /\
      sameButStatus (this (run (handler b) s)) (this s)) /\
  (selection s = None ->
   world (run (handler requestTilesButton) s) = world s /\
   sameButStatus (this (run (handler requestTilesButton) s)) (this s)) /\
  (forall m : Id64String,
      selection s = Some m ->
      log (run (handler requestTilesButton) s) =
        log s ++ [RefreshForModifiedModels [m]] /\
      _vp (world (run (handler requestTilesButton) s)) = _vp (world s) /\
      sameButStatus (this (run (handler requestTilesButton) s)) (this s)).
Proof.
  intros Hb. split; [| split].
  - intros b Hne. destruct b; cbn [handler].
    + rewrite (toggleEditingScope_refused s Hb). repeat split.
    + rewrite (moveSample_refused true s (or_introl Hb)). repeat split.
    + rewrite (saveAndRefresh_refused s (or_introl Hb)). repeat split.
    + rewrite (moveSample_refused false s (or_introl Hb)). repeat split.
    + contradiction.
  - intros Hsel. cbn [handler]. rewrite (requestTiles_refused s Hsel).
    repeat split.
  - intros m Hsel. cbn [handler]. rewrite (requestTiles_done s m Hsel).
    repeat split.
Qed.

Lemma no_briefcase_frame_witness :
  (forall b : Button,
      b <> requestTilesButton ->
      world (run (handler b) snapshotPanel) = world snapshotPanel /\
      sameButStatus (this (run (handler b) snapshotPanel))
                    (this snapshotPanel)) /\
  log (run (handler requestTilesButton) snapshotPanel) =
    log snapshotPanel ++ [RefreshForModifiedModels ["0x10"]].
Proof.
  split.
  - apply (proj1 (no_briefcase_frame snapshotPanel eq_refl)).
  - apply (proj1 (proj2 (proj2 (no_briefcase_frame snapshotPanel eq_refl))
                    "0x10" eq_refl)).
Defined.

(** ** The cached offset over the life of a panel *)

Lemma newCalls_app (s s' : State) (cs : list ExternalCall) :
  log s' = log s ++ cs -> newCalls s s' = cs.
Proof.
  intros H. unfold newCalls.
  rewrite H, skipn_app, skipn_all, Nat.sub_diag. reflexivity.
Qed.

(** [moveSample] ends in one of three ways. *)
Lemma moveSample_outcome (s : State) :
  (hasBriefcase s = false \/ selection s = None) \/
  (exists m, hasBriefcase s = true /\ selection s = Some m /\
             sampleIds s m = []) \/
  (exists m, hasBriefcase s = true /\ selection s = Some m /\
             sampleIds s m <> []).
Proof.
  destruct (hasBriefcase s) eqn:Hb; [| now left; left].
  destruct (selection s) as [m |] eqn:Hm; [| now left; right].
  right. destruct (sampleIds s m) eqn:Hids.
  - left. exists m. now rewrite Hids.
  - right. exists m. rewrite Hids. repeat split; discriminate.
Qed.

(** What one step does to the cached offset and to the transforms applied
    so far: either nothing, or the offset [offsetFor] is cached and one
    translation by it, or by its negation, is applied. *)
Lemma step_summary (s s' : State) :
  step s s' ->
  (_lastOffset (this s') = _lastOffset (this s) /\
   appliedTransforms (log s') = appliedTransforms (log s)) \/
  (exists outside : bool,
      _lastOffset (this s') = Some (offsetFor s) /\
      appliedTransforms (log s') =
      appliedTransforms (log s) ++
      [Transform.createTranslation
         (if outside then offsetFor s else Vector3d.negate (offsetFor s))]).
Proof.
  assert (Hmove : forall outside,
    (_lastOffset (this (run (moveSample outside) s)) = _lastOffset (this s) /\
     appliedTransforms (log (run (moveSample outside) s)) =
     appliedTransforms (log s)) \/
    (exists o : bool,
      _lastOffset (this (run (moveSample outside) s)) = Some (offsetFor s) /\
      appliedTransforms (log (run (moveSample outside) s)) =
      appliedTransforms (log s) ++
      [Transform.createTranslation
         (if o then offsetFor s else Vector3d.negate (offsetFor s))])).
  { intros outside.
    destruct (moveSample_outcome s) as [H | [[m [Hb [Hm Hids]]] | [m [Hb [Hm Hne]]]]].
    - left. rewrite (moveSample_refused outside s H). split; reflexivity.
    - left. rewrite (moveSample_no_elements outside s m Hb Hm Hids). split.
      + change (_lastOffset (this (scoped s)) = _lastOffset (this s)).
        now rewrite scoped_panel.
      + change (appliedTransforms
                  (log (scoped s) ++
                   [CreateQueryReader sampleQuery [m] UseJsPropertyNames]) =
                appliedTransforms (log s)).
        rewrite scoped_log, !appliedTransforms_app.
        destruct (scopeOf s); cbn; now rewrite !app_nil_r.
    - right. exists outside. split.
      + exact (moveSample_moves_lastOffset outside s m Hb Hm Hne).
      + rewrite (moveSample_moves_log outside s m Hb Hm Hne).
        rewrite !appliedTransforms_app. destruct (scopeOf s); reflexivity. }
  intros Hstep. destruct Hstep as [b s | s | i s Hi | vp' s].
  - destruct b; cbn [handler].
    + left. destruct (hasBriefcase s) eqn:Hb.
      * destruct (scopeOf s) as [scope |] eqn:Hs.
        -- rewrite (toggleEditingScope_exits s scope Hb Hs). split.
           ++ reflexivity.
           ++ change (appliedTransforms (log s ++ [ExitEditingScope]) =
                      appliedTransforms (log s)).
              rewrite appliedTransforms_app. cbn. now rewrite app_nil_r.
        -- rewrite (toggleEditingScope_enters s Hb Hs). split.
           ++ reflexivity.
           ++ change (appliedTransforms (log s ++ [EnterEditingScope]) =
                      appliedTransforms (log s)).
              rewrite appliedTransforms_app. cbn. now rewrite app_nil_r.
      * rewrite (toggleEditingScope_refused s Hb). split; reflexivity.
    + apply Hmove.
    + left. destruct (hasBriefcase s) eqn:Hb;
        [destruct (selection s) as [m |] eqn:Hm |].
      * rewrite (saveAndRefresh_done s m Hb Hm). split; [reflexivity |].
        change (appliedTransforms
                  ((log s ++ [SaveChanges "Project extents tile example"]) ++
                   [RefreshForModifiedModels [m]]) =
                appliedTransforms (log s)).
        rewrite !appliedTransforms_app. cbn. now rewrite !app_nil_r.
      * rewrite (saveAndRefresh_refused s (or_intror Hm)). split; reflexivity.
      * rewrite (saveAndRefresh_refused s (or_introl Hb)). split; reflexivity.
    + apply Hmove.
    + left. destruct (selection s) as [m |] eqn:Hm.
      * rewrite (requestTiles_done s m Hm). split; [reflexivity |].
        change (appliedTransforms (log s ++ [RefreshForModifiedModels [m]]) =
                appliedTransforms (log s)).
        rewrite appliedTransforms_app. cbn. now rewrite app_nil_r.
      * rewrite (requestTiles_refused s Hm). split; reflexivity.
  - left. split; reflexivity.
  - left. split; reflexivity.
  - left. split; reflexivity.
Qed.

(** Once an offset is cached it stays, whatever happens to the panel. *)
Lemma steps_keep_lastOffset (s s' : State) (offset : Vector3d.t) :
  steps s s' ->
  _lastOffset (this s) = Some offset -> _lastOffset (this s') = Some offset.
Proof.
  intros Hsteps Hoff. induction Hsteps as [s | s s' s'' _ IH Hstep].
  - exact Hoff.
  - specialize (IH Hoff).
    destruct (step_summary _ _ Hstep) as [[Hl _] | [o [Hl _]]].
    + now rewrite Hl.
    + rewrite Hl. unfold offsetFor. now rewrite IH.
Qed.

(** C3: a "move outside" and a later "move back" on the same panel, both
    reaching the transform call, each apply exactly one translation, and
    the two are exact negations of each other: the first is the offset the
    panel has cached, the second its negation.  This holds whatever
    happens in between (further clicks, a view change, another model
    picked, the connection's project extents or contents changing). *)
Theorem moveSample_outside_then_back (s1 s2 : State) (m1 m2 : Id64String) :
  hasBriefcase s1 = true -> selection s1 = Some m1 -> sampleIds s1 m1 <> [] ->
  steps (run (moveSample true) s1) s2 ->
  hasBriefcase s2 = true -> selection s2 = Some m2 -> sampleIds s2 m2 <> [] ->
  exists offset : Vector3d.t,
    _lastOffset (this s2) = Some offset /\
    appliedTransforms (newCalls s1 (run (moveSample true) s1)) =
      [Transform.createTranslation offset] /\
    appliedTransforms (newCalls s2 (run (moveSample false) s2)) =
      [Transform.createTranslation (Vector3d.negate offset)].
Proof.
  intros Hb1 Hm1 Hne1 Hsteps Hb2 Hm2 Hne2.
  exists (offsetFor s1).
  pose proof (steps_keep_lastOffset _ _ _ Hsteps
                (moveSample_moves_lastOffset true s1 m1 Hb1 Hm1 Hne1)) as Hoff.
  split; [exact Hoff | split].
  - rewrite (newCalls_app _ _ _ (moveSample_moves_log true s1 m1 Hb1 Hm1 Hne1)).
    rewrite appliedTransforms_app. destruct (scopeOf s1); reflexivity.
  - rewrite (newCalls_app _ _ _ (moveSample_moves_log false s2 m2 Hb2 Hm2 Hne2)).
    rewrite appliedTransforms_app. unfold offsetFor at 1. rewrite Hoff.
    destruct (scopeOf s2); reflexivity.
Qed.

Lemma moveSample_outside_then_back_witness :
  exists offset : Vector3d.t,
    _lastOffset (this movedPanelLargerExtents) = Some offset /\
    appliedTransforms (newCalls briefcasePanel
                                (run (moveSample true) briefcasePanel)) =
      [Transform.createTranslation offset] /\
    appliedTransforms (newCalls movedPanelLargerExtents
                         (run (moveSample false) movedPanelLargerExtents)) =
      [Transform.createTranslation (Vector3d.negate offset)].
Proof.
  apply (moveSample_outside_then_back briefcasePanel movedPanelLargerExtents
           "0x10" "0x10"); try reflexivity; try discriminate.
  apply steps_step with (run (moveSample true) briefcasePanel).
  - apply steps_refl.
  - exact (step_viewport largerViewport movedPanel).
Defined.

(** ** Every translation is along the x axis *)

Lemma defaultOffset_onXAxis : onXAxis defaultOffset.
Proof. split; reflexivity. Qed.

Lemma offsetFor_onXAxis (s : State) : axisInvariant s -> onXAxis (offsetFor s).
Proof.
  intros [Hoff _]. unfold offsetFor.
  destruct (_lastOffset (this s)) as [v |].
  - now apply Hoff.
  - apply getRangeBasedOffset_onXAxis.
Qed.

Lemma construct_axisInvariant (vp : Viewport) : axisInvariant (construct vp).
Proof.
  split.
  - intros offset H. discriminate H.
  - constructor.
Qed.

Lemma step_axisInvariant (s s' : State) :
  step s s' -> axisInvariant s -> axisInvariant s'.
Proof.
  intros Hstep Hinv. pose proof (offsetFor_onXAxis s Hinv) as Hfor.
  destruct Hinv as [Hoff Hlog].
  destruct (step_summary _ _ Hstep) as [[Hl Ht] | [outside [Hl Ht]]];
    split; rewrite ?Hl, ?Ht.
  - exact Hoff.
  - exact Hlog.
  - intros offset H. injection H as <-. exact Hfor.
  - apply Forall_app. split; [exact Hlog |].
    constructor; [| constructor]. cbn [Transform.origin].
    destruct outside; [exact Hfor | now apply negate_onXAxis].
Qed.

Lemma reachable_axisInvariant (s : State) : reachable s -> axisInvariant s.
Proof.
  intros [vp Hsteps].
  remember (construct vp) as s0 eqn:Hs0.
  induction Hsteps as [s | s s' s'' _ IH Hstep].
  - subst s. apply construct_axisInvariant.
  - apply (step_axisInvariant s' s'' Hstep). now apply IH.
Qed.

Lemma In_appliedTransforms (cs : list ExternalCall) (ids : list string)
    (transform : Transform.t) :
  In (TransformElements ids transform) cs ->
  In transform (appliedTransforms cs).
Proof.
  induction cs as [| c cs IH]; [contradiction |].
  intros [H | H].
  - subst c. now left.
  - destruct c; cbn; auto.
Qed.

(** C8: the default offset (50000, 0, 0) and every range-based offset have
    zero y and z components, and so has every translation a panel has
    applied, in either direction, at any point of its life: [moveSample]
    never displaces geometry in y or z. *)
Theorem translations_on_x_axis :
  onXAxis defaultOffset /\
  (forall extents : Range3d.t, onXAxis (getRangeBasedOffset extents)) /\
  (forall s : State,
      reachable s ->
      forall (ids : list string) (transform : Transform.t),
        In (TransformElements ids transform) (log s) ->
        onXAxis (Transform.origin transform)).
Proof.
  split; [exact defaultOffset_onXAxis | split].
  - exact getRangeBasedOffset_onXAxis.
  - intros s Hreach ids transform Hin.
    destruct (reachable_axisInvariant s Hreach) as [_ Hlog].
    rewrite Forall_forall in Hlog. apply Hlog.
    exact (In_appliedTransforms _ _ _ Hin).
Qed.

Lemma translations_on_x_axis_witness :
  onXAxis (Transform.origin
             (Transform.createTranslation
                (Vector3d.negate (offsetFor briefcasePanel)))).
Proof.
  apply (proj2 (proj2 translations_on_x_axis)
           (run (moveSample false) movedPanel))
    with (ids := ["0x20"; "0x21"]).
  - exists (briefcaseViewport None unitCube).
    apply steps_step with movedPanel.
    + apply steps_step with briefcasePanel.
      * apply steps_refl.
      * exact (step_click moveOutside briefcasePanel).
    + exact (step_click moveBack movedPanel).
  - do 4 right. left. reflexivity.
Defined.

(** ** The element query *)

Lemma fold_pushIfString_acc (rows : list QueryRow.t) (acc : list string) :
  fold_left pushIfString rows acc = acc ++ fold_left pushIfString rows [].
Proof.
  revert acc. induction rows as [| row rows IH]; intros acc.
  - cbn. now rewrite app_nil_r.
  - cbn [fold_left]. rewrite IH, (IH (pushIfString [] row)).
    unfold pushIfString. destruct (QueryRow.id row); cbn.
    + reflexivity.
    + reflexivity.
    + now rewrite <- app_assoc.
Qed.

(** X1: [getSampleElementIds] returns an identifier exactly when some row
    of the reader carries it as a string under [id]; rows whose [id] is not
    a string contribute nothing. *)
Theorem getSampleElementIds_membership (s : State) (m : Id64String)
    (i : string) :
  In i (fst (getSampleElementIds viewportIModel m s)) <->
  exists row, In row (sampleRowsOf s m) /\ QueryRow.id row = JsString i.
Proof.
  change (fst (getSampleElementIds viewportIModel m s))
    with (fold_left pushIfString (sampleRowsOf s m) []).
  induction (sampleRowsOf s m) as [| row rows IH].
  - cbn. split; [contradiction | intros [row [[] _]]].
  - cbn [fold_left]. rewrite fold_pushIfString_acc, in_app_iff, IH.
    split.
    + intros [H | [row' [Hin Hid]]].
      * exists row. split; [now left |].
        unfold pushIfString in H. destruct (QueryRow.id row); cbn in H;
          try contradiction.
        destruct H as [<- | []]. reflexivity.
      * exists row'. split; [now right | exact Hid].
    + intros [row' [[<- | Hin] Hid]].
      * left. unfold pushIfString. rewrite Hid. now left.
      * right. now exists row'.
Qed.

(** X2: the loop of [getSampleElementIds] keeps the order of the rows:
    what it collects from two runs of rows, one after the other, is what it
    collects from the first followed by what it collects from the second. *)
Theorem getSampleElementIds_keeps_order (rows rows' : list QueryRow.t) :
  fold_left pushIfString (rows ++ rows') [] =
  fold_left pushIfString rows [] ++ fold_left pushIfString rows' [].
Proof.
  rewrite fold_left_app. apply fold_pushIfString_acc.
Qed.

(** X3: [getSampleElementIds] never returns more identifiers than the
    reader has rows; a reader that honours the [LIMIT 50] of the query
    therefore yields at most 50 identifiers. *)
Theorem getSampleElementIds_bounded (s : State) (m : Id64String) (n : nat) :
  (List.length (sampleRowsOf s m) <= n)%nat ->
  (List.length (fst (getSampleElementIds viewportIModel m s)) <= n)%nat.
Proof.
  change (fst (getSampleElementIds viewportIModel m s))
    with (fold_left pushIfString (sampleRowsOf s m) []).
  revert n. induction (sampleRowsOf s m) as [| row rows IH]; intros n Hn.
  - cbn. lia.
  - cbn [fold_left]. rewrite fold_pushIfString_acc, length_app.
    cbn [List.length] in Hn. specialize (IH (n - 1)%nat ltac:(lia)).
    assert (List.length (pushIfString [] row) <= 1)%nat
      by (unfold pushIfString; destruct (QueryRow.id row); cbn; lia).
    lia.
Qed.

Lemma getSampleElementIds_bounded_witness :
  (List.length (fst (getSampleElementIds viewportIModel "0x10" briefcasePanel))
   <= 50)%nat.
Proof.
  apply (getSampleElementIds_bounded briefcasePanel "0x10" 50).
  cbn. lia.
Defined.

(** ** The range-based offset, further *)

Lemma getRangeBasedOffset_clears_bound (extents : Range3d.t) :
  (50000 <= Vector3d.x (getRangeBasedOffset extents))%R.
Proof.
  destruct (Rle_lt_dec (largestLength extents) 0) as [H | H].
  - rewrite (getRangeBasedOffset_degenerate _ H). cbn [Vector3d.x]. lra.
  - rewrite (getRangeBasedOffset_positive _ H). cbn [Vector3d.x].
    apply Rmax_r.
Qed.

(** X4: whatever the extents, the offset points along +x with an x
    component of at least 50000 and at least twice the largest dimension,
    so strictly more than the largest dimension; its magnitude is that x
    component. *)
Theorem getRangeBasedOffset_clears_extents (extents : Range3d.t) :
  (50000 <= Vector3d.x (getRangeBasedOffset extents))%R /\
  (2 * largestLength extents <= Vector3d.x (getRangeBasedOffset extents))%R /\
  (largestLength extents < Vector3d.x (getRangeBasedOffset extents))%R /\
  Vector3d.magnitude (getRangeBasedOffset extents) =
    Vector3d.x (getRangeBasedOffset extents).
Proof.
  destruct (Rle_lt_dec (largestLength extents) 0) as [H | H].
  - rewrite (getRangeBasedOffset_degenerate _ H). cbn [Vector3d.x].
    repeat split; try lra. apply magnitude_on_x_axis; lra.
  - rewrite (getRangeBasedOffset_positive _ H). cbn [Vector3d.x].
    pose proof (Rmax_l (largestLength extents * 2) 50000).
    pose proof (Rmax_r (largestLength extents * 2) 50000).
    repeat split; try lra. apply magnitude_on_x_axis; lra.
Qed.

(** X5: the offset grows with the extents: a range whose largest dimension
    is no smaller gets an offset that is no shorter. *)
Theorem getRangeBasedOffset_monotone (extents extents' : Range3d.t) :
  (largestLength extents <= largestLength extents')%R ->
  (Vector3d.x (getRangeBasedOffset extents) <=
   Vector3d.x (getRangeBasedOffset extents'))%R.
Proof.
  intros Hle.
  destruct (Rle_lt_dec (largestLength extents) 0) as [H | H];
    destruct (Rle_lt_dec (largestLength extents') 0) as [H' | H'];
    rewrite ?(getRangeBasedOffset_degenerate _ H),
            ?(getRangeBasedOffset_positive _ H),
            ?(getRangeBasedOffset_degenerate _ H'),
            ?(getRangeBasedOffset_positive _ H');
    cbn [Vector3d.x]; try lra.
  - apply Rmax_r.
  - unfold Rmax; repeat destruct (Rle_dec _ _); lra.
Qed.

Lemma getRangeBasedOffset_monotone_witness :
  (Vector3d.x (getRangeBasedOffset unitCube) <=
   Vector3d.x (getRangeBasedOffset (Range3d.fromLengths 100000 100000 100000)))%R.
Proof.
  apply (getRangeBasedOffset_monotone unitCube
           (Range3d.fromLengths 100000 100000 100000)).
  unfold unitCube. rewrite !largestLength_cube. lra.
Defined.

(** ** The drop-down of models *)

Lemma fold_appendModelOption (models : list ModelState.t)
    (sel : HTMLSelectElement.t) :
  fold_left appendModelOption models sel =
  HTMLSelectElement.make
    (HTMLSelectElement.options sel ++ map optionOf models)
    (match models with
     | [] => HTMLSelectElement.selectedIndex sel
     | _ :: _ =>
         match HTMLSelectElement.selectedIndex sel with
         | Some i => Some i
         | None => Some 0%nat
         end
     end).
Proof.
  revert sel. induction models as [| model models IH]; intros sel.
  - destruct sel as [os idx]. cbn. now rewrite app_nil_r.
  - cbn [fold_left]. rewrite IH.
    unfold appendModelOption, HTMLSelectElement.appendChild.
    cbn [HTMLSelectElement.options HTMLSelectElement.selectedIndex map].
    fold (optionOf model). rewrite <- app_assoc. cbn [app].
    destruct models, (HTMLSelectElement.selectedIndex sel); reflexivity.
Qed.

(** The drop-down [populateModels] leaves behind. *)
Lemma populateModels_select (s : State) :
  _modelSelect (this (run populateModels s)) =
  HTMLSelectElement.make
    (map optionOf (viewModels (_vp (world s))))
    (if truthy (HTMLSelectElement.value (_modelSelect (this s)))
     then HTMLSelectElement.indexOfValue
            (HTMLSelectElement.value (_modelSelect (this s)))
            (map optionOf (viewModels (_vp (world s))))
     else match viewModels (_vp (world s)) with
          | [] => None
          | _ :: _ => Some 0%nat
          end).
Proof.
  unfold run, populateModels, modify. cbv zeta. cbn [snd].
  rewrite fold_appendModelOption.
  unfold HTMLSelectElement.clear, HTMLSelectElement.setValue.
  cbn [HTMLSelectElement.options HTMLSelectElement.selectedIndex app].
  destruct (truthy _); cbn [withPanel this _modelSelect
                            HTMLSelectElement.options]; [reflexivity |].
  destruct (viewModels _); reflexivity.
Qed.

Lemma optionOf_values (models : list ModelState.t) :
  map HTMLOptionElement.value (map optionOf models) = map ModelState.id models.
Proof. rewrite map_map. reflexivity. Qed.

Lemma indexOfValue_found (v : string) (os : list HTMLOptionElement.t) :
  In v (map HTMLOptionElement.value os) ->
  exists i o, HTMLSelectElement.indexOfValue v os = Some i /\
              nth_error os i = Some o /\ HTMLOptionElement.value o = v.
Proof.
  induction os as [| o os IH]; [contradiction |].
  intros Hin. cbn [HTMLSelectElement.indexOfValue].
  destruct (HTMLOptionElement.value o =? v) eqn:E.
  - exists 0%nat, o. apply String.eqb_eq in E. repeat split; assumption.
  - destruct Hin as [H | H].
    + apply String.eqb_neq in E. contradiction.
    + destruct (IH H) as [i [o' [Hi [Hn Hv]]]].
      exists (S i), o'. rewrite Hi. repeat split; assumption.
Qed.

Lemma indexOfValue_missing (v : string) (os : list HTMLOptionElement.t) :
  ~ In v (map HTMLOptionElement.value os) ->
  HTMLSelectElement.indexOfValue v os = None.
Proof.
  induction os as [| o os IH]; [reflexivity |].
  intros Hnin. cbn [HTMLSelectElement.indexOfValue].
  destruct (HTMLOptionElement.value o =? v) eqn:E.
  - apply String.eqb_eq in E. exfalso. apply Hnin. now left.
  - rewrite IH; [reflexivity |]. intros H. apply Hnin. now right.
Qed.

Lemma selection_Some (s : State) (m : Id64String) :
  selection s = Some m ->
  HTMLSelectElement.value (_modelSelect (this s)) = m /\ truthy m = true.
Proof.
  unfold_observations.
  destruct (truthy (HTMLSelectElement.value _)) eqn:E; [| discriminate].
  intros H. injection H as <-. split; [reflexivity | exact E].
Qed.

Lemma selection_None (s : State) :
  selection s = None ->
  truthy (HTMLSelectElement.value (_modelSelect (this s))) = false.
Proof.
  unfold_observations.
  destruct (truthy (HTMLSelectElement.value _)); [discriminate | reflexivity].
Qed.

(** X6: after [populateModels] the drop-down lists exactly the models of
    the view, one option per model and in the view's order, each with the
    model's id as value and its name (or, without a name, its id) as text;
    nothing but the drop-down changes. *)
Theorem populateModels_lists_models (s : State) :
  HTMLSelectElement.options (_modelSelect (this (run populateModels s))) =
    map optionOf (viewModels (_vp (world s))) /\
  world (run populateModels s) = world s /\
  _status (this (run populateModels s)) = _status (this s) /\
  _lastOffset (this (run populateModels s)) = _lastOffset (this s).
Proof.
  split; [now rewrite populateModels_select | repeat split].
Qed.

(** X7: [populateModels] keeps the selection when the selected model is
    still among the models of the view. *)
Theorem populateModels_keeps_selection (s : State) (m : Id64String) :
  selection s = Some m -> In m (viewModelIds s) ->
  selection (run populateModels s) = Some m.
Proof.
  intros Hsel Hin. destruct (selection_Some s m Hsel) as [Hv Ht].
  unfold selection, selectedModelId, gets. cbn [fst].
  rewrite populateModels_select, Hv, Ht.
  unfold viewModelIds in Hin. rewrite <- optionOf_values in Hin.
  destruct (indexOfValue_found _ _ Hin) as [i [o [Hi [Hn Ho]]]].
  rewrite Hi. unfold HTMLSelectElement.value.
  cbn [HTMLSelectElement.selectedIndex HTMLSelectElement.options].
  rewrite Hn, Ho, Ht. reflexivity.
Qed.

Lemma populateModels_keeps_selection_witness :
  selection (run populateModels briefcasePanel) = Some "0x10".
Proof.
  apply (populateModels_keeps_selection briefcasePanel "0x10").
  - reflexivity.
  - left. reflexivity.
Defined.

(** X8: when the selected model is no longer among the models of the view,
    [populateModels] leaves the drop-down with no selected option, even if
    the view shows other models: its value is the empty string,
    [selectedModelId] is undefined, and the move, save and request buttons
    then refuse with their select-a-model status. *)
Theorem populateModels_drops_vanished_selection (s : State) (m : Id64String) :
  selection s = Some m -> ~ In m (viewModelIds s) ->
  HTMLSelectElement.value (_modelSelect (this (run populateModels s))) = "" /\
  selection (run populateModels s) = None /\
  (forall outside : bool,
      statusText (run (moveSample outside) (run populateModels s)) =
      "Select a model and ensure the iModel is writable.") /\
  statusText (run saveAndRefresh (run populateModels s)) =
    "Select a model and ensure the iModel is writable." /\
  statusText (run requestTiles (run populateModels s)) =
    "Select a model before requesting tiles.".
Proof.
  intros Hsel Hnin. destruct (selection_Some s m Hsel) as [Hv Ht].
  assert (Hval : HTMLSelectElement.value
                   (_modelSelect (this (run populateModels s))) = "").
  { rewrite populateModels_select, Hv, Ht.
    unfold viewModelIds in Hnin. rewrite <- optionOf_values in Hnin.
    rewrite (indexOfValue_missing _ _ Hnin). reflexivity. }
  assert (Hnone : selection (run populateModels s) = None).
  { unfold selection, selectedModelId, gets. cbn [fst]. now rewrite Hval. }
  split; [exact Hval | split; [exact Hnone | split; [| split]]].
  - intros outside. now rewrite (moveSample_refused outside _ (or_intror Hnone)).
  - now rewrite (saveAndRefresh_refused _ (or_intror Hnone)).
  - now rewrite (requestTiles_refused _ Hnone).
Qed.

Lemma populateModels_drops_vanished_selection_witness :
  HTMLSelectElement.value
    (_modelSelect (this (run populateModels staleSelectionPanel))) = "" /\
  selection (run populateModels staleSelectionPanel) = None /\
  (forall outside : bool,
      statusText (run (moveSample outside)
                      (run populateModels staleSelectionPanel)) =
      "Select a model and ensure the iModel is writable.") /\
  statusText (run saveAndRefresh (run populateModels staleSelectionPanel)) =
    "Select a model and ensure the iModel is writable." /\
  statusText (run requestTiles (run populateModels staleSelectionPanel)) =
    "Select a model before requesting tiles.".
Proof.
  apply (populateModels_drops_vanished_selection staleSelectionPanel "0x10").
  - reflexivity.
  - intros [H | []]. discriminate H.
Defined.

(** X9: when nothing is selected, [populateModels] on a view with at least
    one model selects the first model of the view (provided its id is not
    the empty string). *)
Theorem populateModels_selects_first (s : State) (model : ModelState.t)
    (rest : list ModelState.t) :
  selection s = None ->
  viewModels (_vp (world s)) = model :: rest ->
  ModelState.id model <> "" ->
  selection (run populateModels s) = Some (ModelState.id model).
Proof.
  intros Hsel Hmodels Hid.
  unfold selection, selectedModelId, gets. cbn [fst].
  rewrite populateModels_select, (selection_None s Hsel), Hmodels.
  unfold HTMLSelectElement.value.
  cbn [HTMLSelectElement.selectedIndex HTMLSelectElement.options map
       nth_error optionOf HTMLOptionElement.value].
  unfold truthy. apply String.eqb_neq in Hid. now rewrite Hid.
Qed.

Lemma populateModels_selects_first_witness :
  selection (run populateModels (run populateModels staleSelectionPanel)) =
  Some "0x30".
Proof.
  apply (populateModels_selects_first
           (run populateModels staleSelectionPanel)
           (ModelState.make "0x30" None) []).
  - reflexivity.
  - reflexivity.
  - discriminate.
Defined.

(** X10: a second [populateModels] on an unchanged view changes nothing,
    provided the first one could keep the selection: nothing was selected,
    or the selected model is among the models of the view. *)
Theorem populateModels_idempotent (s : State) :
  selection s = None \/
  (exists m, selection s = Some m /\ In m (viewModelIds s)) ->
  run populateModels (run populateModels s) = run populateModels s.
Proof.
  intros H.
  assert (Hsel : _modelSelect (this (run populateModels (run populateModels s))) =
                 _modelSelect (this (run populateModels s))).
  { rewrite (populateModels_select (run populateModels s)).
    change (viewModels (_vp (world (run populateModels s))))
      with (viewModels (_vp (world s))).
    rewrite (populateModels_select s).
    destruct H as [Hnone | [m [Hsome Hin]]].
    - rewrite (selection_None s Hnone).
      destruct (viewModels (_vp (world s))) as [| model rest]; [reflexivity |].
      unfold HTMLSelectElement.value.
      cbn [HTMLSelectElement.selectedIndex HTMLSelectElement.options map
           nth_error optionOf HTMLOptionElement.value].
      destruct (truthy (ModelState.id model)); [| reflexivity].
      cbn [HTMLSelectElement.indexOfValue HTMLOptionElement.value].
      now rewrite String.eqb_refl.
    - destruct (selection_Some s m Hsome) as [Hv Ht]. rewrite Hv, Ht.
      unfold viewModelIds in Hin. rewrite <- optionOf_values in Hin.
      destruct (indexOfValue_found _ _ Hin) as [i [o [Hi [Hn Ho]]]].
      rewrite Hi. unfold HTMLSelectElement.value at 1 2.
      cbn [HTMLSelectElement.selectedIndex HTMLSelectElement.options].
      rewrite Hn, Ho, Ht, Hi. reflexivity. }
  destruct (populateModels_lists_models (run populateModels s))
    as [_ [Hw [Hst Hoff]]].
  destruct (run populateModels (run populateModels s)) as [[sel2 st2 off2] w2].
  destruct (run populateModels s) as [[sel1 st1 off1] w1].
  cbn in Hsel, Hw, Hst, Hoff. now subst.
Qed.

Lemma populateModels_idempotent_witness :
  run populateModels (run populateModels briefcasePanel) =
  run populateModels briefcasePanel.
Proof.
  apply (populateModels_idempotent briefcasePanel).
  right. exists "0x10". split; [reflexivity | left; reflexivity].
Defined.

(** X11: whenever [selectedModelId] is defined it is not the empty string
    and it is the value of one of the options of the drop-down. *)
Theorem selectedModelId_is_an_option (s : State) (m : Id64String) :
  selection s = Some m ->
  m <> "" /\
  exists o, In o (HTMLSelectElement.options (_modelSelect (this s))) /\
            HTMLOptionElement.value o = m.
Proof.
  intros Hsel. destruct (selection_Some s m Hsel) as [Hv Ht].
  assert (Hne : m <> "").
  { intros ->. discriminate Ht. }
  split; [exact Hne |].
  unfold HTMLSelectElement.value in Hv.
  destruct (HTMLSelectElement.selectedIndex _) as [i |];
    [| now (symmetry in Hv)].
  destruct (nth_error _ i) as [o |] eqn:Hn; [| now (symmetry in Hv)].
  exists o. split; [exact (nth_error_In _ _ Hn) | exact Hv].
Qed.

Lemma selectedModelId_is_an_option_witness :
  "0x11" <> "" /\
  exists o, In o (HTMLSelectElement.options
                    (_modelSelect (this emptyModelPanel))) /\
            HTMLOptionElement.value o = "0x11".
Proof.
  apply (selectedModelId_is_an_option emptyModelPanel "0x11"). reflexivity.
Defined.



(** ** The handlers, further *)

Lemma truthy_nonempty (m : string) : truthy m = true -> m <> "".
Proof. intros H ->. discriminate H. Qed.

Lemma no_elements_log (s : State) (m : Id64String) :
  log (run (setStatus "No geometric elements were found in the selected model.")
           (run (call (CreateQueryReader sampleQuery [m] UseJsPropertyNames))
                (scoped s))) =
  log s ++
  match scopeOf s with Some _ => [] | None => [EnterEditingScope] end ++
  [CreateQueryReader sampleQuery [m] UseJsPropertyNames].
Proof.
  change (log (scoped s) ++
          [CreateQueryReader sampleQuery [m] UseJsPropertyNames] =
          log s ++
          match scopeOf s with Some _ => [] | None => [EnterEditingScope] end ++
          [CreateQueryReader sampleQuery [m] UseJsPropertyNames]).
  rewrite scoped_log, <- app_assoc. reflexivity.
Qed.

(** What pressing a button does to the log and to the drop-down. *)
Lemma handler_effect (b : Button) (s : State) :
  exists cs : list ExternalCall,
    log (run (handler b) s) = log s ++ cs /\
    Forall panelCall cs /\
    _modelSelect (this (run (handler b) s)) = _modelSelect (this s).
Proof.
  assert (Hmove : forall outside, exists cs : list ExternalCall,
    log (run (moveSample outside) s) = log s ++ cs /\
    Forall panelCall cs /\
    _modelSelect (this (run (moveSample outside) s)) = _modelSelect (this s)).
  { intros outside.
    destruct (moveSample_outcome s)
      as [H | [[m [Hb [Hm Hids]]] | [m [Hb [Hm Hne]]]]].
    - exists []. rewrite (moveSample_refused outside s H).
      split; [symmetry; apply app_nil_r | split; [constructor | reflexivity]].
    - pose proof (truthy_nonempty m (proj2 (selection_Some s m Hm))) as Hm'.
      eexists. rewrite (moveSample_no_elements outside s m Hb Hm Hids).
      split; [apply no_elements_log | split].
      + apply Forall_app. split.
        * destruct (scopeOf s); repeat constructor.
        * repeat constructor. exists m. split; [reflexivity | exact Hm'].
      + change (_modelSelect (this (scoped s)) = _modelSelect (this s)).
        now rewrite scoped_panel.
    - pose proof (truthy_nonempty m (proj2 (selection_Some s m Hm))) as Hm'.
      eexists. split; [apply (moveSample_moves_log outside s m Hb Hm Hne) |].
      split.
      + apply Forall_app. split.
        * destruct (scopeOf s); repeat constructor.
        * repeat constructor; [| exact Hne].
          exists m. split; [reflexivity | exact Hm'].
      + rewrite (moveSample_moves outside s m Hb Hm Hne).
        change (_modelSelect (this (scoped s)) = _modelSelect (this s)).
        now rewrite scoped_panel. }
  destruct b; cbn [handler]; try apply Hmove.
  - destruct (hasBriefcase s) eqn:Hb;
      [destruct (scopeOf s) as [scope |] eqn:Hs |].
    + exists [ExitEditingScope].
      rewrite (toggleEditingScope_exits s scope Hb Hs).
      repeat split. repeat constructor.
    + exists [EnterEditingScope]. rewrite (toggleEditingScope_enters s Hb Hs).
      repeat split. repeat constructor.
    + exists []. rewrite (toggleEditingScope_refused s Hb).
      split; [symmetry; apply app_nil_r | split; [constructor | reflexivity]].
  - destruct (hasBriefcase s) eqn:Hb;
      [destruct (selection s) as [m |] eqn:Hm |].
    + pose proof (truthy_nonempty m (proj2 (selection_Some s m Hm))) as Hm'.
      exists [SaveChanges "Project extents tile example";
              RefreshForModifiedModels [m]].
      rewrite (saveAndRefresh_done s m Hb Hm). split; [| split].
      * change ((log s ++ [SaveChanges "Project extents tile example"]) ++
                [RefreshForModifiedModels [m]] =
                log s ++ [SaveChanges "Project extents tile example";
                          RefreshForModifiedModels [m]]).
        now rewrite <- app_assoc.
      * repeat constructor. exists m. split; [reflexivity | exact Hm'].
      * reflexivity.
    + exists []. rewrite (saveAndRefresh_refused s (or_intror Hm)).
      split; [symmetry; apply app_nil_r | split; [constructor | reflexivity]].
    + exists []. rewrite (saveAndRefresh_refused s (or_introl Hb)).
      split; [symmetry; apply app_nil_r | split; [constructor | reflexivity]].
  - destruct (selection s) as [m |] eqn:Hm.
    + pose proof (truthy_nonempty m (proj2 (selection_Some s m Hm))) as Hm'.
      exists [RefreshForModifiedModels [m]]. rewrite (requestTiles_done s m Hm).
      repeat split. repeat constructor.
      exists m. split; [reflexivity | exact Hm'].
    + exists []. rewrite (requestTiles_refused s Hm).
      split; [symmetry; apply app_nil_r | split; [constructor | reflexivity]].
Qed.

(** X13: [requestTiles] looks at the selection only.  Without a selected
    model it sets its status and calls nothing; with one it makes exactly
    one call, a tile refresh for that model, whether or not the connection
    is a briefcase: it never saves and never touches the connection. *)
Theorem requestTiles_contract (s : State) :
  (selection s = None ->
   statusText (run requestTiles s) =
     "Select a model before requesting tiles." /\
   world (run requestTiles s) = world s /\
   sameButStatus (this (run requestTiles s)) (this s)) /\
  (forall m : Id64String,
      selection s = Some m ->
      statusText (run requestTiles s) =
        "Requested tiles for the modified model without saving." /\
      log (run requestTiles s) = log s ++ [RefreshForModifiedModels [m]] /\
      _vp (world (run requestTiles s)) = _vp (world s) /\
      sameButStatus (this (run requestTiles s)) (this s)).
Proof.
  split.
  - intros H. rewrite (requestTiles_refused s H). repeat split.
  - intros m H. rewrite (requestTiles_done s m H). repeat split.
Qed.

Lemma requestTiles_contract_witness :
  (statusText (run requestTiles noModelPanel) =
     "Select a model before requesting tiles." /\
   world (run requestTiles noModelPanel) = world noModelPanel /\
   sameButStatus (this (run requestTiles noModelPanel)) (this noModelPanel)) /\
  (statusText (run requestTiles editingPanel) =
     "Requested tiles for the modified model without saving." /\
   log (run requestTiles editingPanel) =
     log editingPanel ++ [RefreshForModifiedModels ["0x10"]] /\
   _vp (world (run requestTiles editingPanel)) = _vp (world editingPanel) /\
   sameButStatus (this (run requestTiles editingPanel)) (this editingPanel)).
Proof.
  split.
  - apply (proj1 (requestTiles_contract noModelPanel)). reflexivity.
  - apply (proj2 (requestTiles_contract editingPanel) "0x10"). reflexivity.
Defined.

(** X14: with a briefcase, a selected model and at least one element,
    [moveSample] enters an editing scope only if none is active, runs the
    sample query, and transforms exactly the identifiers the query
    returned, all by one translation: the cached offset if there is one,
    else the offset computed from the project extents, negated for "move
    back".  It caches the (un-negated) offset, leaves a scope active, and
    reports the direction moved. *)
Theorem moveSample_completes (outside : bool) (s : State) (m : Id64String) :
  hasBriefcase s = true -> selection s = Some m -> sampleIds s m <> [] ->
  newCalls s (run (moveSample outside) s) =
    match scopeOf s with Some _ => [] | None => [EnterEditingScope] end ++
    [CreateQueryReader sampleQuery [m] UseJsPropertyNames;
     TransformElements (sampleIds s m)
       (Transform.createTranslation
          (if outside then offsetFor s else Vector3d.negate (offsetFor s)))] /\
  _lastOffset (this (run (moveSample outside) s)) = Some (offsetFor s) /\
  scopeOf (run (moveSample outside) s) <> None /\
  statusText (run (moveSample outside) s) =
    (if outside
     then "Moved sample geometry beyond the project extents while editing."
     else "Moved sample geometry back within the project extents without saving.").
Proof.
  intros Hb Hm Hne.
  split; [| split; [| split]].
  - apply newCalls_app. exact (moveSample_moves_log outside s m Hb Hm Hne).
  - exact (moveSample_moves_lastOffset outside s m Hb Hm Hne).
  - rewrite (moveSample_moves outside s m Hb Hm Hne).
    change (scopeOf (scoped s) <> None). apply scoped_active.
  - rewrite (moveSample_moves outside s m Hb Hm Hne). reflexivity.
Qed.

Lemma moveSample_completes_witness :
  newCalls briefcasePanel (run (moveSample false) briefcasePanel) =
    match scopeOf briefcasePanel with
    | Some _ => []
    | None => [EnterEditingScope]
    end ++
    [CreateQueryReader sampleQuery ["0x10"] UseJsPropertyNames;
     TransformElements (sampleIds briefcasePanel "0x10")
       (Transform.createTranslation
          (Vector3d.negate (offsetFor briefcasePanel)))] /\
  _lastOffset (this (run (moveSample false) briefcasePanel)) =
    Some (offsetFor briefcasePanel) /\
  scopeOf (run (moveSample false) briefcasePanel) <> None /\
  statusText (run (moveSample false) briefcasePanel) =
    "Moved sample geometry back within the project extents without saving.".
Proof.
  apply (moveSample_completes false briefcasePanel "0x10");
    try reflexivity; discriminate.
Defined.

(** X15: [moveSample] never saves, never exits the editing scope and never
    asks for a tile refresh, whatever the state it is called in. *)
Theorem moveSample_never_saves (outside : bool) (s : State) :
  (forall description,
      ~ In (SaveChanges description)
           (newCalls s (run (moveSample outside) s))) /\
  ~ In ExitEditingScope (newCalls s (run (moveSample outside) s)) /\
  (forall modelIds,
      ~ In (RefreshForModifiedModels modelIds)
           (newCalls s (run (moveSample outside) s))).
Proof.
  assert (H : exists cs, newCalls s (run (moveSample outside) s) = cs /\
              forall c, In c cs ->
                match c with
                | SaveChanges _ | ExitEditingScope
                | RefreshForModifiedModels _ => False
                | _ => True
                end).
  { destruct (moveSample_outcome s)
      as [H | [[m [Hb [Hm Hids]]] | [m [Hb [Hm Hne]]]]].
    - exists []. split; [| intros c []].
      apply newCalls_app. rewrite (moveSample_refused outside s H).
      symmetry; apply app_nil_r.
    - eexists. split.
      + apply newCalls_app.
        rewrite (moveSample_no_elements outside s m Hb Hm Hids).
        apply no_elements_log.
      + intros c Hin. apply in_app_or in Hin.
        destruct (scopeOf s); cbn in Hin;
          repeat (destruct Hin as [Hin | Hin]); subst; try exact I;
          contradiction.
    - eexists. split.
      + apply newCalls_app. exact (moveSample_moves_log outside s m Hb Hm Hne).
      + intros c Hin. apply in_app_or in Hin.
        destruct (scopeOf s); cbn in Hin;
          repeat (destruct Hin as [Hin | Hin]); subst; try exact I;
          contradiction. }
  destruct H as [cs [-> Hcs]].
  split; [| split].
  - intros description Hin. exact (Hcs _ Hin).
  - intros Hin. exact (Hcs _ Hin).
  - intros modelIds Hin. exact (Hcs _ Hin).
Qed.

(** X16: once past its guard (a briefcase and a selected model),
    [moveSample] always leaves the connection with an editing scope, found
    elements or not, and it calls [enterEditingScope] exactly when there
    was none: it never enters a scope while one is active. *)
Theorem moveSample_ensures_scope (outside : bool) (s : State)
    (m : Id64String) :
  hasBriefcase s = true -> selection s = Some m ->
  scopeOf (run (moveSample outside) s) <> None /\
  (In EnterEditingScope (newCalls s (run (moveSample outside) s)) <->
   scopeOf s = None).
Proof.
  intros Hb Hm.
  assert (Hin : forall tail,
    (forall c, In c tail -> c <> EnterEditingScope) ->
    In EnterEditingScope
       (match scopeOf s with Some _ => [] | None => [EnterEditingScope] end ++
        tail) <-> scopeOf s = None).
  { intros tail Htail. rewrite in_app_iff. destruct (scopeOf s); cbn.
    - split; [| discriminate].
      intros [[] | H]. exfalso. exact (Htail _ H eq_refl).
    - split; [reflexivity | intros _; now left; left]. }
  destruct (sampleIds s m) as [| i ids] eqn:Hids.
  - split.
    + rewrite (moveSample_no_elements outside s m Hb Hm Hids).
      change (scopeOf (scoped s) <> None). apply scoped_active.
    + rewrite (newCalls_app s _ _
                 (eq_trans (f_equal log
                    (moveSample_no_elements outside s m Hb Hm Hids))
                    (no_elements_log s m))).
      apply Hin. intros c [<- | []]. discriminate.
  - assert (Hne : sampleIds s m <> []) by (rewrite Hids; discriminate).
    split.
    + rewrite (moveSample_moves outside s m Hb Hm Hne).
      change (scopeOf (scoped s) <> None). apply scoped_active.
    + rewrite (newCalls_app s _ _ (moveSample_moves_log outside s m Hb Hm Hne)).
      apply Hin. intros c [<- | [<- | []]]; discriminate.
Qed.

Lemma moveSample_ensures_scope_witness :
  scopeOf (run (moveSample true) editingPanel) <> None /\
  (In EnterEditingScope (newCalls editingPanel
                                  (run (moveSample true) editingPanel)) <->
   scopeOf editingPanel = None).
Proof.
  apply (moveSample_ensures_scope true editingPanel "0x10"); reflexivity.
Defined.

(** ** Invariants of a panel in use *)

Lemma step_offsetHistory (s s' : State) :
  step s s' -> offsetHistory s -> offsetHistory s'.
Proof.
  intros Hstep Hinv. unfold offsetHistory in *.
  destruct (step_summary _ _ Hstep) as [[Hl Ht] | [outside [Hl Ht]]];
    rewrite Hl, Ht; [exact Hinv |].
  assert (Hlast : translatesBy (offsetFor s)
            (Transform.createTranslation
               (if outside then offsetFor s else Vector3d.negate (offsetFor s))))
    by (destruct outside; [now left | now right]).
  unfold offsetFor in *.
  destruct (_lastOffset (this s)) as [offset |].
  - destruct Hinv as [Hex Hall]. split; [exact Hex |].
    apply Forall_app. split; [exact Hall |].
    constructor; [exact Hlast | constructor].
  - rewrite Hinv. split; [eexists; reflexivity |].
    constructor; [exact Hlast | constructor].
Qed.

Lemma reachable_offsetHistory (s : State) : reachable s -> offsetHistory s.
Proof.
  intros [vp Hsteps].
  remember (construct vp) as s0 eqn:Hs0.
  induction Hsteps as [s | s s' s'' _ IH Hstep].
  - subst s. reflexivity.
  - apply (step_offsetHistory s' s'' Hstep). now apply IH.
Qed.

Lemma movedBack_reachable : reachable (run (moveSample false) movedPanel).
Proof.
  exists (briefcaseViewport None unitCube).
  apply steps_step with movedPanel.
  - apply steps_step with briefcasePanel.
    + apply steps_refl.
    + exact (step_click moveOutside briefcasePanel).
  - exact (step_click moveBack movedPanel).
Qed.

(** X17: over its whole life a panel translates by one single vector and
    its negation.  Before the first completed move nothing has been
    transformed; afterwards the cached offset is one that
    [getRangeBasedOffset] computed, every transform applied so far is a
    translation by it or by its negation, and so each one moves geometry by
    at least 50000 along x. *)
Theorem panel_translates_by_one_offset (s : State) :
  reachable s ->
  offsetHistory s /\
  (forall ids transform,
      In (TransformElements ids transform) (log s) ->
      (50000 <= Rabs (Vector3d.x (Transform.origin transform)))%R).
Proof.
  intros Hreach. pose proof (reachable_offsetHistory s Hreach) as Hinv.
  split; [exact Hinv |].
  intros ids transform Hin. apply In_appliedTransforms in Hin.
  unfold offsetHistory in Hinv.
  destruct (_lastOffset (this s)) as [offset |].
  - destruct Hinv as [[extents ->] Hall]. rewrite Forall_forall in Hall.
    pose proof (getRangeBasedOffset_clears_bound extents) as Hx.
    destruct (Hall _ Hin) as [-> | ->]; cbn [Transform.origin Vector3d.negate
                                             Vector3d.x].
    + rewrite Rabs_right; lra.
    + rewrite Rabs_Ropp, Rabs_right; lra.
  - rewrite Hinv in Hin. contradiction.
Qed.

Lemma panel_translates_by_one_offset_witness :
  offsetHistory (run (moveSample false) movedPanel) /\
  (forall ids transform,
      In (TransformElements ids transform)
         (log (run (moveSample false) movedPanel)) ->
      (50000 <= Rabs (Vector3d.x (Transform.origin transform)))%R).
Proof.
  apply (panel_translates_by_one_offset (run (moveSample false) movedPanel)).
  exact movedBack_reachable.
Defined.

Lemma step_log (s s' : State) :
  step s s' -> exists cs, log s' = log s ++ cs /\ Forall panelCall cs.
Proof.
  intros Hstep. destruct Hstep as [b s | s | i s Hi | vp' s].
  - destruct (handler_effect b s) as [cs [Hlog [Hcs _]]]. now exists cs.
  - exists []. split; [symmetry; apply app_nil_r | constructor].
  - exists []. split; [symmetry; apply app_nil_r | constructor].
  - exists []. split; [symmetry; apply app_nil_r | constructor].
Qed.

(** X18: every call a panel has ever made has one of six shapes: entering
    or exiting the editing scope, the sample query bound to one non-empty
    model id, a transform of a non-empty list of identifiers, a save with
    the description "Project extents tile example", or a tile refresh for
    one non-empty model id.  In particular the panel never transforms an
    empty list of elements and never refreshes an empty list of models. *)
Theorem panel_calls_well_formed (s : State) :
  reachable s -> Forall panelCall (log s).
Proof.
  intros [vp Hsteps].
  remember (construct vp) as s0 eqn:Hs0.
  induction Hsteps as [s | s s' s'' _ IH Hstep].
  - subst s. constructor.
  - destruct (step_log _ _ Hstep) as [cs [-> Hcs]].
    apply Forall_app. split; [now apply IH | exact Hcs].
Qed.

Lemma panel_calls_well_formed_witness :
  Forall panelCall (log (run (moveSample false) movedPanel)).
Proof.
  apply (panel_calls_well_formed (run (moveSample false) movedPanel)).
  exact movedBack_reachable.
Defined.

(** X19: pressing a button never changes the drop-down: its options, the
    selected option and so [selectedModelId] are after any of the five
    handlers what they were before. *)
Theorem handler_keeps_selection (b : Button) (s : State) :
  _modelSelect (this (run (handler b) s)) = _modelSelect (this s) /\
  selection (run (handler b) s) = selection s.
Proof.
  destruct (handler_effect b s) as [cs [_ [_ Hsel]]].
  split; [exact Hsel |].
  unfold selection, selectedModelId, gets. cbn [fst]. now rewrite Hsel.
Qed.

(** X20: on a briefcase, pressing the editing-scope button twice makes one
    exit and one enter call, in the order the initial state dictates, and
    leaves a scope active exactly if one was active before; the status
    line says so. *)
Theorem toggleEditingScope_twice (s : State) :
  hasBriefcase s = true ->
  newCalls s (run toggleEditingScope (run toggleEditingScope s)) =
    match scopeOf s with
    | Some _ => [ExitEditingScope; EnterEditingScope]
    | None => [EnterEditingScope; ExitEditingScope]
    end /\
  (scopeOf (run toggleEditingScope (run toggleEditingScope s)) = None <->
   scopeOf s = None) /\
  statusText (run toggleEditingScope (run toggleEditingScope s)) =
    match scopeOf s with
    | Some _ => "Editing scope is active."
    | None => "Editing scope ended."
    end.
Proof.
  intros Hb. destruct (scopeOf s) as [scope |] eqn:Hs.
  - rewrite (toggleEditingScope_exits s scope Hb Hs).
    rewrite (toggleEditingScope_enters
               (run (setStatus "Editing scope ended.")
                    (run (exitEditingScope viewportIModel) s)) Hb eq_refl).
    split; [| split; [split; discriminate | reflexivity]].
    apply newCalls_app.
    change ((log s ++ [ExitEditingScope]) ++ [EnterEditingScope] =
            log s ++ [ExitEditingScope; EnterEditingScope]).
    now rewrite <- app_assoc.
  - rewrite (toggleEditingScope_enters s Hb Hs).
    rewrite (toggleEditingScope_exits
               (run (setStatus "Editing scope is active.")
                    (run (enterEditingScope viewportIModel) s))
               ActiveScope Hb eq_refl).
    split; [| split; [split; reflexivity | reflexivity]].
    apply newCalls_app.
    change ((log s ++ [EnterEditingScope]) ++ [ExitEditingScope] =
            log s ++ [EnterEditingScope; ExitEditingScope]).
    now rewrite <- app_assoc.
Qed.

Lemma toggleEditingScope_twice_witness :
  newCalls editingPanel
           (run toggleEditingScope (run toggleEditingScope editingPanel)) =
    match scopeOf editingPanel with
    | Some _ => [ExitEditingScope; EnterEditingScope]
    | None => [EnterEditingScope; ExitEditingScope]
    end /\
  (scopeOf (run toggleEditingScope (run toggleEditingScope editingPanel)) =
   None <-> scopeOf editingPanel = None) /\
  statusText (run toggleEditingScope (run toggleEditingScope editingPanel)) =
    match scopeOf editingPanel with
    | Some _ => "Editing scope is active."
    | None => "Editing scope ended."
    end.
Proof.
  apply (toggleEditingScope_twice editingPanel). reflexivity.
Defined.

(** ** Two passes, two moves *)

Lemma populateModels_vanished (s : State) (m : Id64String) :
  selection s = Some m -> ~ In m (viewModelIds s) ->
  selection (run populateModels s) = None.
Proof.
  intros Hsel Hnin. destruct (selection_Some s m Hsel) as [Hv Ht].
  unfold selection, selectedModelId, gets. cbn [fst].
  rewrite populateModels_select, Hv, Ht.
  unfold viewModelIds in Hnin. rewrite <- optionOf_values in Hnin.
  rewrite (indexOfValue_missing _ _ Hnin). reflexivity.
Qed.

Lemma populateModels_first (s : State) (model : ModelState.t)
    (rest : list ModelState.t) :
  selection s = None ->
  viewModels (_vp (world s)) = model :: rest ->
  ModelState.id model <> "" ->
  selection (run populateModels s) = Some (ModelState.id model).
Proof.
  intros Hsel Hmodels Hid.
  unfold selection, selectedModelId, gets. cbn [fst].
  rewrite populateModels_select, (selection_None s Hsel), Hmodels.
  unfold HTMLSelectElement.value.
  cbn [HTMLSelectElement.selectedIndex HTMLSelectElement.options map
       nth_error optionOf HTMLOptionElement.value].
  unfold truthy. apply String.eqb_neq in Hid. now rewrite Hid.
Qed.

(** X21: [populateModels] is not idempotent once the selected model has
    left the view: the first pass leaves nothing selected, and a second
    pass over the same view then selects the view's first model. *)
Theorem populateModels_second_pass_selects_first (s : State)
    (m : Id64String) (model : ModelState.t) (rest : list ModelState.t) :
  selection s = Some m -> ~ In m (viewModelIds s) ->
  viewModels (_vp (world s)) = model :: rest -> ModelState.id model <> "" ->
  selection (run populateModels s) = None /\
  selection (run populateModels (run populateModels s)) =
    Some (ModelState.id model).
Proof.
  intros Hsel Hnin Hmodels Hid.
  pose proof (populateModels_vanished s m Hsel Hnin) as Hnone.
  split; [exact Hnone |].
  exact (populateModels_first (run populateModels s) model rest
           Hnone Hmodels Hid).
Qed.

Lemma populateModels_second_pass_selects_first_witness :
  selection (run populateModels staleSelectionPanel) = None /\
  selection (run populateModels (run populateModels staleSelectionPanel)) =
    Some "0x30".
Proof.
  apply (populateModels_second_pass_selects_first staleSelectionPanel "0x10"
           (ModelState.make "0x30" None) []).
  - reflexivity.
  - intros [H | []]. discriminate H.
  - reflexivity.
  - discriminate.
Defined.

(** X22: the offset is computed once.  Of any two completed moves of the
    same panel, in whatever directions and whatever happened in between
    (the project extents may have changed), the later one translates by the
    offset the earlier one used, or by its negation, according to its own
    direction only; the panel keeps no record of where the sample is, so
    two "move outside" in a row translate twice by the same vector. *)
Theorem moveSample_reuses_offset (first second : bool) (s1 s2 : State)
    (m1 m2 : Id64String) :
  hasBriefcase s1 = true -> selection s1 = Some m1 -> sampleIds s1 m1 <> [] ->
  steps (run (moveSample first) s1) s2 ->
  hasBriefcase s2 = true -> selection s2 = Some m2 -> sampleIds s2 m2 <> [] ->
  appliedTransforms (newCalls s1 (run (moveSample first) s1)) =
    [Transform.createTranslation
       (if first then offsetFor s1 else Vector3d.negate (offsetFor s1))] /\
  appliedTransforms (newCalls s2 (run (moveSample second) s2)) =
    [Transform.createTranslation
       (if second then offsetFor s1 else Vector3d.negate (offsetFor s1))].
Proof.
  intros Hb1 Hm1 Hne1 Hsteps Hb2 Hm2 Hne2.
  pose proof (steps_keep_lastOffset _ _ _ Hsteps
                (moveSample_moves_lastOffset first s1 m1 Hb1 Hm1 Hne1)) as Hoff.
  assert (Hfor : offsetFor s2 = offsetFor s1)
    by (unfold offsetFor at 1; now rewrite Hoff).
  split.
  - rewrite (newCalls_app _ _ _ (moveSample_moves_log first s1 m1 Hb1 Hm1 Hne1)).
    rewrite appliedTransforms_app. destruct (scopeOf s1); reflexivity.
  - rewrite (newCalls_app _ _ _ (moveSample_moves_log second s2 m2 Hb2 Hm2 Hne2)).
    rewrite appliedTransforms_app, Hfor. destruct (scopeOf s2); reflexivity.
Qed.

Lemma moveSample_reuses_offset_witness :
  appliedTransforms (newCalls briefcasePanel
                              (run (moveSample true) briefcasePanel)) =
    [Transform.createTranslation (offsetFor briefcasePanel)] /\
  appliedTransforms (newCalls movedPanelLargerExtents
                       (run (moveSample true) movedPanelLargerExtents)) =
    [Transform.createTranslation (offsetFor briefcasePanel)].
Proof.
  apply (moveSample_reuses_offset true true briefcasePanel
           movedPanelLargerExtents "0x10" "0x10");
    try reflexivity; try discriminate.
  apply steps_step with (run (moveSample true) briefcasePanel).
  - apply steps_refl.
  - exact (step_viewport largerViewport movedPanel).
Defined.
